(** * The demo server of [server.js]: record store, accounts, avatar proxy

    A shallow embedding of the request handlers of [src/3.js] (the part
    after the separator, [server.js]) and the properties its specification
    states about them.

    Conventions of the model.
    - A JSON value is a [json]; numbers are IEEE doubles ([float]), as in
      JavaScript.  An object is the list of its properties in the order
      JavaScript enumerates them; the names of the properties of an object
      read from JSON are distinct.
    - A JavaScript string is a [string], one [ascii] for each of its code
      units: the model has the strings whose code units are all below 256
      (Latin-1 text), the [ascii] of code [n] standing for the character of
      that code.  On these the character functions ([trim], [toLowerCase], the user name pattern,
      [encodeURIComponent]) are those of JavaScript.
    - A file of the data directory is modelled by the JSON value its text
      denotes.  [JSON.stringify] writes a number that is [NaN] or infinite as
      [null] and [-0] as [0]; [as_written] is the value read back from what
      it wrote.  A body or a file can hold an infinite number (the literal
      [1e400] is read as [Infinity]).  Writing a file succeeds.
    - A reply is the value the handler hands to [res.json], and the session
      the value it assigns to [req.session.userId].
    - [req.body] is a JSON value; a request without a body behaves as one
      whose body is [null].
    - What a handler takes from its environment (the clock, the salt of
      [bcrypt.hash], the answers of the upstream service) is an argument.
    - Requests are served one after the other. *)

From Stdlib Require Import PrimFloat FloatAxioms Ascii.
From stdpp Require Import base option list strings countable gmap.

Set Default Proof Using "Type".

(** ** JSON values and the JavaScript operators the handlers apply to them *)

#[warnings="-register-all"] Inductive json : Type :=
  | JNull
  | JBool (b : bool)
  | JNum (x : float)
  | JStr (s : string)
  | JArr (items : list json)
  | JObj (fields : list (string * json)).

(** A computation that may throw: [Thrown] is a JavaScript exception (or a
    rejected promise under [await]). *)
Inductive exc (A : Type) : Type :=
  | Returned (a : A)
  | Thrown.
Arguments Returned {A} a.
Arguments Thrown {A}.

#[global] Instance exc_ret : MRet exc := λ A a, Returned a.
#[global] Instance exc_bind : MBind exc := λ A B f m,
  match m with
  | Returned a => f a
  | Thrown => Thrown
  end.
#[global] Instance exc_fmap : FMap exc := λ A B f m,
  match m with
  | Returned a => Returned (f a)
  | Thrown => Thrown
  end.

(** [!!v]: the falsy values are [null], [false], [0], [-0], [NaN] and [''] *)
Definition truthy (v : json) : bool :=
  match v with
  | JNull => false
  | JBool b => b
  | JNum x => negb (PrimFloat.eqb x 0%float || PrimFloat.is_nan x)
  | JStr s => negb (bool_decide (s = ""))
  | JArr _ | JObj _ => true
  end.

(** *** Properties of objects *)

(** The value of the property [k], [None] when there is none *)
Fixpoint lookup_prop (k : string) (fields : list (string * json)) : option json :=
  match fields with
  | [] => None
  | (k', x) :: rest => if bool_decide (k' = k) then Some x else lookup_prop k rest
  end.

(** Setting the property [k]: an existing property keeps its place, a new
    one goes last. *)
Fixpoint set_prop (k : string) (x : json) (fields : list (string * json)) : list (string * json) :=
  match fields with
  | [] => [(k, x)]
  | (k', x') :: rest =>
      if bool_decide (k' = k) then (k, x) :: rest else (k', x') :: set_prop k x rest
  end.

(** The names of the properties *)
Definition keys (fields : list (string * json)) : list string := fields.*1.

(** [v.k] for a value [v] that is neither [null] nor [undefined], and a
    name [k] that no built-in prototype defines (every name the handlers
    read is such a name); [None] is [undefined]. *)
Definition get_prop (v : json) (k : string) : option json :=
  match v with
  | JObj fields => lookup_prop k fields
  | _ => None
  end.

(** [const { k } = v]: destructuring [null] throws a TypeError. *)
Definition destructure (v : json) (k : string) : exc (option json) :=
  match v with
  | JNull => Thrown
  | _ => Returned (get_prop v k)
  end.

(** [v || d] where [v] may be [undefined] *)
Definition or_else (v : option json) (d : json) : json :=
  match v with
  | Some x => if truthy x then x else d
  | None => d
  end.

(** [!v] where [v] may be [undefined] *)
Definition falsy (v : option json) : bool :=
  match v with
  | Some x => negb (truthy x)
  | None => true
  end.

(** [a === b].  Two objects or arrays are equal only when they are the same
    object; the handlers compare a value of the session with a value parsed
    afresh from a file, which never are. *)
Definition strict_eq (a b : json) : bool :=
  match a, b with
  | JNull, JNull => true
  | JBool x, JBool y => bool_decide (x = y)
  | JNum x, JNum y => PrimFloat.eqb x y
  | JStr x, JStr y => bool_decide (x = y)
  | _, _ => false
  end.

(** [a === b] where either side may be [undefined] *)
Definition strict_eq_opt (a b : option json) : bool :=
  match a, b with
  | None, None => true
  | Some x, Some y => strict_eq x y
  | _, _ => false
  end.

(** *** Strings *)

(** The white space and line terminators [trim] strips, among the code
    units below 256: tab, line feed, vertical tab, form feed, carriage
    return, space, and the no-break space U+00A0. *)
Definition is_space (c : ascii) : bool :=
  let n := nat_of_ascii c in
  (9 <=? n)%nat && (n <=? 13)%nat || (n =? 32)%nat || (n =? 160)%nat.

Fixpoint trimStart (s : string) : string :=
  match s with
  | String c rest => if is_space c then trimStart rest else s
  | EmptyString => EmptyString
  end.

Fixpoint trimEnd (s : string) : string :=
  match s with
  | String c rest =>
      match trimEnd rest with
      | EmptyString => if is_space c then EmptyString else String c EmptyString
      | rest' => String c rest'
      end
  | EmptyString => EmptyString
  end.

(** [s.trim()] *)
Definition trim (s : string) : string := trimEnd (trimStart s).

(** The lower case of a code unit below 256: the letters A to Z, and
    U+00C0 to U+00DE but for the multiplication sign U+00D7, have theirs 32
    further on. *)
Definition lower_char (c : ascii) : ascii :=
  let n := nat_of_ascii c in
  if (65 <=? n)%nat && (n <=? 90)%nat
     || (192 <=? n)%nat && (n <=? 222)%nat && negb (n =? 215)%nat
  then ascii_of_nat (n + 32) else c.

(** [s.toLowerCase()] *)
Fixpoint toLowerCase (s : string) : string :=
  match s with
  | String c rest => String (lower_char c) (toLowerCase rest)
  | EmptyString => EmptyString
  end.

(** The character class [[A-Za-z0-9_-]] *)
Definition name_char (c : ascii) : bool :=
  let n := nat_of_ascii c in
  (65 <=? n)%nat && (n <=? 90)%nat
  || (97 <=? n)%nat && (n <=? 122)%nat
  || (48 <=? n)%nat && (n <=? 57)%nat
  || (n =? 95)%nat || (n =? 45)%nat.

Fixpoint all_chars (p : ascii → bool) (s : string) : bool :=
  match s with
  | String c rest => p c && all_chars p rest
  | EmptyString => true
  end.

(** [/^[A-Za-z0-9_-]{2,32}$/.test(s)] *)
Definition name_pattern (s : string) : bool :=
  (2 <=? String.length s)%nat && (String.length s <=? 32)%nat && all_chars name_char s.

Fixpoint join_comma (parts : list string) : string :=
  match parts with
  | [] => ""
  | [p] => p
  | p :: rest => p +:+ "," +:+ join_comma rest
  end.

Section Coercion.

(** [String(x)] for a number [x]: the shortest decimal that reads back as
    [x]; the handlers only pass its result on. *)
Variable number_to_string : float → string.

(** [String(v)].  An array is its elements joined by commas, [null]
    elements giving the empty string.  An object is ["[object Object]"],
    unless it has a property [toString] of its own: a property read from
    JSON is never a function, [Object.prototype.valueOf] then returns the
    object itself, and the conversion throws a TypeError. *)
Fixpoint to_String (v : json) : exc string :=
  match v with
  | JNull => Returned "null"
  | JBool true => Returned "true"
  | JBool false => Returned "false"
  | JNum x => Returned (number_to_string x)
  | JStr s => Returned s
  | JArr items =>
      (fix elements (l : list json) : exc (list string) :=
         match l with
         | [] => Returned []
         | JNull :: rest => parts ← elements rest; Returned ("" :: parts)
         | item :: rest =>
             part ← to_String item; parts ← elements rest; Returned (part :: parts)
         end) items ≫= λ parts, Returned (join_comma parts)
  | JObj fields =>
      match lookup_prop "toString" fields with
      | Some _ => Thrown
      | None => Returned "[object Object]"
      end
  end.

End Coercion.

(** [encodeURIComponent(s)]: letters, digits and [-_.!~*'()] stay, every
    other character becomes [%XX] for each byte of its UTF-8 form: one byte
    below U+0080, the two bytes [110000xx 10xxxxxx] from U+0080 to U+00FF. *)
Definition unreserved (c : ascii) : bool :=
  let n := nat_of_ascii c in
  (65 <=? n)%nat && (n <=? 90)%nat
  || (97 <=? n)%nat && (n <=? 122)%nat
  || (48 <=? n)%nat && (n <=? 57)%nat
  || bool_decide (c ∈ ["-"; "_"; "."; "!"; "~"; "*"; "'"; "("; ")"]%char).

Definition hex_digit (n : nat) : ascii :=
  if (n <? 10)%nat then ascii_of_nat (48 + n) else ascii_of_nat (55 + n).

(** The byte [n] as [%XX], before [rest] *)
Definition percent (n : nat) (rest : string) : string :=
  String "%" (String (hex_digit (n / 16)) (String (hex_digit (n mod 16)) rest)).

Fixpoint encodeURIComponent (s : string) : string :=
  match s with
  | String c rest =>
      let n := nat_of_ascii c in
      if unreserved c then String c (encodeURIComponent rest)
      else if (n <? 128)%nat then percent n (encodeURIComponent rest)
      else percent (192 + n / 64) (percent (128 + n mod 64) (encodeURIComponent rest))
  | EmptyString => EmptyString
  end.

(** *** Objects and arrays *)

(** An object literal some of whose values may be [undefined], handed to
    [res.json]: a property whose value is [undefined] is left out, as it is
    from the text of the reply. *)
Definition object_opt (props : list (string * option json)) : json :=
  JObj (omap (λ p, pair p.1 <$> p.2) props).

(** [v.k = x] as [JSON.stringify] sees [v] afterwards.  On an object the
    property is set.  On an array the property is set too, but it is not
    an element, and [JSON.stringify] writes the elements only.  On a number,
    a string or a boolean the assignment does nothing (the module is not in
    strict mode).  On [null] it throws a TypeError. *)
Definition assign_prop (v : json) (k : string) (x : json) : exc json :=
  match v with
  | JObj fields => Returned (JObj (set_prop k x fields))
  | JNull => Thrown
  | _ => Returned v
  end.

(** [arr.push(x)] followed by reading [arr]; a value read from JSON that is
    not an array has no method [push]. *)
Definition array_push (arr : json) (x : json) : exc json :=
  match arr with
  | JArr items => Returned (JArr (items ++ [x]))
  | _ => Thrown
  end.

(** [items.findIndex(p)], [None] for [-1]; the callback may throw. *)
Fixpoint findIndex (p : json → exc bool) (items : list json) : exc (option nat) :=
  match items with
  | [] => Returned None
  | item :: rest =>
      hit ← p item;
      if hit : bool then Returned (Some 0%nat)
      else i ← findIndex p rest; Returned (fmap (M:=option) S i)
  end.

(** [arr.find(p)], [None] for [undefined] *)
Definition array_find (p : json → exc bool) (arr : json) : exc (option json) :=
  match arr with
  | JArr items => i ← findIndex p items; Returned (i ≫= (items !!.))
  | _ => Thrown
  end.

(** [arr.findIndex(p)] *)
Definition array_findIndex (p : json → exc bool) (arr : json) : exc (option nat) :=
  match arr with
  | JArr items => findIndex p items
  | _ => Thrown
  end.

(** *** What [JSON.stringify] writes *)

(** The value [JSON.parse] reads from the text [JSON.stringify(v, null, 2)].
    A number that is [NaN] or infinite is written [null], and [-0] is
    written [0]; every other number is written with the digits that read
    back as the same number, and strings, arrays and the properties of
    objects are written in full and in order. *)
Fixpoint as_written (v : json) : json :=
  match v with
  | JNum x =>
      match PrimFloat.classify x with
      | FloatClass.NaN | FloatClass.PInf | FloatClass.NInf => JNull
      | FloatClass.NZero => JNum 0
      | _ => JNum x
      end
  | JArr items => JArr (as_written <$> items)
  | JObj fields => JObj (prod_map id as_written <$> fields)
  | _ => v
  end.



(** ** The record store: three JSON files *)

(** The paths [data/users.json], [data/responses.json], [data/logins.json] *)
Inductive file : Type :=
  | USERS_FILE
  | RESP_FILE
  | LOGINS_FILE.

#[global] Instance file_eq_dec : EqDecision file.
Proof. solve_decision. Defined.

#[global] Instance file_countable : Countable file.
Proof.
  refine (inj_countable' (λ f, match f with
                               | USERS_FILE => 0%nat
                               | RESP_FILE => 1%nat
                               | LOGINS_FILE => 2%nat
                               end)
                         (λ n, match n with
                               | 0%nat => USERS_FILE
                               | 1%nat => RESP_FILE
                               | _ => LOGINS_FILE
                               end) _).
  by intros [].
Defined.

(** The text of a file: empty, the text of a JSON value, or anything else *)
Inductive text : Type :=
  | Blank
  | Denotes (v : json)
  | Garbled.

(** The files that exist, by path *)
Abbreviation disk := (gmap file text).

(** [readJson(file)]: [fs.readFile] throws when the file is missing,
    [JSON.parse(raw || '[]')] when the text is not JSON. *)
Definition readJson (d : disk) (file : file) : exc json :=
  match d !! file with
  | None => Thrown
  | Some Blank => Returned (JArr [])
  | Some (Denotes v) => Returned v
  | Some Garbled => Thrown
  end.

(** [writeJson(file, obj)]: the file gets the text
    [JSON.stringify(obj, null, 2)]. *)
Definition writeJson (d : disk) (file : file) (obj : json) : disk :=
  <[file := Denotes (as_written obj)]> d.

(** [ensureDataFiles()], run once when the server starts: a file that
    cannot be accessed is created with the text ['[]']. *)
Definition ensureDataFiles (d : disk) : disk :=
  foldl (λ d f, match d !! f with
                | Some _ => d
                | None => <[f := Denotes (JArr [])]> d
                end)
        d [USERS_FILE; RESP_FILE; LOGINS_FILE].

(** ** Requests and replies *)

(** What a handler did with [res]: a reply with a status and the value
    handed to [res.json], or none (the handler's promise rejected outside
    any [try]). *)
Inductive outcome : Type :=
  | Sent (status : nat) (payload : json)
  | NoReply.

(** [res.status(code).json({ error: message })] *)
Definition fail_with (code : nat) (message : string) : outcome :=
  Sent code (JObj [("error", JStr message)]).

(** [res.json({ ok: true })] *)
Definition replied_ok : outcome := Sent 200 (JObj [("ok", JBool true)]).

(** The error kinds of the specification, by the status that carries them *)
Inductive error_kind : Type :=
  | ValidationError
  | AuthError
  | NotFoundError
  | ConflictError
  | UpstreamError
  | InternalError.

Definition kind_of (o : outcome) : option error_kind :=
  match o with
  | Sent status _ =>
      if bool_decide (status = 400%nat) then Some ValidationError
      else if bool_decide (status = 401%nat) then Some AuthError
      else if bool_decide (status = 404%nat) then Some NotFoundError
      else if bool_decide (status = 409%nat) then Some ConflictError
      else if bool_decide (status = 502%nat) then Some UpstreamError
      else if bool_decide (status = 500%nat) then Some InternalError
      else None
  | NoReply => None
  end.

(** [res.json(...)] with no status set: the status is 200. *)
Definition succeeded (o : outcome) : bool :=
  match o with
  | Sent status _ => bool_decide (status = 200%nat)
  | NoReply => false
  end.

(** What [express.json()] and [express.urlencoded()] hand to a handler as
    [req.body]: an object or an array. *)
Definition parsed_body (body : json) : bool :=
  match body with
  | JObj _ | JArr _ => true
  | _ => false
  end.

(** [req.session.userId], [None] while it is not set *)
Abbreviation session := (option json).

(** ** Calling the upstream service *)

(** What [await fetch(url)] and then [await res.json()] give: the call
    fails, or there is a response with its [ok] flag and a body that is
    JSON ([None] when it is not, and [res.json()] rejects). *)
Inductive fetched : Type :=
  | Unreachable
  | Response (ok : bool) (body : option json).

(** A handler that calls out: it ends with a value, or fetches a URL and
    goes on with what came back. *)
Inductive calling (A : Type) : Type :=
  | Done (a : A)
  | Fetch (url : string) (next : fetched → calling A).
Arguments Done {A} a.
Arguments Fetch {A} url next.

(** [data?.[0]] for a [data] that is not [null] or [undefined] *)
Definition first_of (data : json) : option json :=
  match data with
  | JArr items => head items
  | JObj fields => lookup_prop "0" fields
  | JStr (String c _) => Some (JStr (String c EmptyString))
  | _ => None
  end.

(** [v?.k] *)
Definition get_opt (v : option json) (k : string) : option json :=
  match v with
  | Some JNull | None => None
  | Some v => get_prop v k
  end.

(** [j?.data?.[0]?.imageUrl] *)
Definition image_of (j : json) : option json :=
  match get_opt (Some j) "data" with
  | Some JNull | None => None
  | Some data => get_opt (first_of data) "imageUrl"
  end.

(** Running a handler against the answers the upstream service gives, in
    order: the reply and the URLs fetched, or [None] when the answers run
    out before the handler ends. *)
Fixpoint run {A : Type} (h : calling A) (answers : list fetched) : option (A * list string) :=
  match h with
  | Done a => Some (a, [])
  | Fetch url next =>
      match answers with
      | [] => None
      | answer :: rest =>
          match run (next answer) rest with
          | Some (a, urls) => Some (a, url :: urls)
          | None => None
          end
      end
  end.

(** ** User records *)

(** The user name a record carries, when it is a string *)
Definition name_of (u : json) : option string :=
  match get_prop u "username" with
  | Some (JStr s) => Some s
  | _ => None
  end.

(** The password hash a record carries, when it is a string *)
Definition hash_of (u : json) : option string :=
  match get_prop u "passwordHash" with
  | Some (JStr s) => Some s
  | _ => None
  end.

(** Two user names are the same but for the case of their letters. *)
Definition same_but_case (a b : string) : Prop := toLowerCase a = toLowerCase b.

(** The record carries the user name [name], but for case. *)
Definition carries (name : string) (u : json) : bool :=
  match name_of u with
  | Some s => bool_decide (toLowerCase s = toLowerCase name)
  | None => false
  end.

#[global] Instance same_but_case_dec a b : Decision (same_but_case a b).
Proof. unfold same_but_case. apply _. Defined.

(** The record [r'] is the account [r]: the same name and password hash,
    and the id of [r], as it was or as [JSON.stringify] writes it. *)
Definition same_account (r r' : json) : Prop :=
  name_of r' = name_of r ∧ hash_of r' = hash_of r
  ∧ (get_prop r' "id" = get_prop r "id" ∨ get_prop r' "id" = as_written <$> get_prop r "id").

(** The users [users'] are the users [users], each still the same account
    and in the same place, followed by new ones. *)
Definition extends (users users' : list json) : Prop :=
  ∃ kept new, users' = kept ++ new ∧ Forall2 same_account users kept.

(** The user names of the records, in lower case *)
Definition lower_names (users : list json) : list string :=
  omap (λ r, toLowerCase <$> name_of r) users.

(** No two records carry the same user name, but for case. *)
Definition unique_names (users : list json) : Prop := NoDup (lower_names users).

(** The reply to a login that is refused, read off the credentials alone:
    the two replies [POST /api/login] has for a request it refuses. *)
Definition refusal (username password : string) : outcome :=
  if bool_decide (trim username = "") || bool_decide (password = "")
  then fail_with 400 "Credenciales incompletas"
  else fail_with 401 "Usuario/contraseña inválidos".

(** ** The handlers *)

Section Server.

Variable number_to_string : float → string.

(** [bcrypt.hash(password, 10)] with the salt it drew, and
    [bcrypt.compare(password, hash)] *)
Variable bcrypt_hash : string → string → string.
Variable bcrypt_compare : string → string → bool.

(** [String(v || '')] *)
Definition text_of (v : option json) : exc string :=
  to_String number_to_string (or_else v (JStr "")).

(** [res.status(500).json({ error: 'Error interno' })], the [catch] of a
    handler: nothing the [try] block did before it threw is kept, since no
    handler writes a file or the session before its last throwing step. *)
Definition guarded {S : Type} (before : S) (block : exc (outcome * S)) : outcome * S :=
  match block with
  | Returned r => r
  | Thrown => (fail_with 500 "Error interno", before)
  end.

(** [u => u.username.toLowerCase() === username.toLowerCase()]: reading
    [username] of [null], or calling [toLowerCase] on anything but a
    string, throws. *)
Definition same_name (username : string) (u : json) : exc bool :=
  match get_prop u "username" with
  | Some (JStr s) => Returned (bool_decide (toLowerCase s = toLowerCase username))
  | _ => Thrown
  end.

(** [u => u.id === req.session.userId]: reading [id] of [null] throws. *)
Definition same_id (userId : option json) (u : json) : exc bool :=
  match u with
  | JNull => Thrown
  | _ => Returned (strict_eq_opt (get_prop u "id") userId)
  end.

(** The record of a new user, [newUser] in [POST /api/register] *)
Definition newUser (now : float) (username hash iso : string) : json :=
  JObj [("id", JNum now); ("username", JStr username);
        ("passwordHash", JStr hash); ("avatarUrl", JStr "");
        ("createdAt", JStr iso)].

(** [POST /api/register].  [salt] is the salt [bcrypt.hash] draws, [now]
    what [Date.now()] returns and [iso] what [new Date().toISOString()]
    returns. *)
Definition register (d : disk) (s : session) (body : json)
    (salt : string) (now : float) (iso : string) : outcome * (disk * session) :=
  guarded (d, s) (
    username ← destructure body "username";
    password ← destructure body "password";
    username ← trim <$> text_of username;
    password ← text_of password;
    if bool_decide (username = "") || (String.length username <? 2)%nat then
      Returned (fail_with 400 "Nombre de usuario inválido", (d, s))
    else if bool_decide (password = "") || (String.length password <? 6)%nat then
      Returned (fail_with 400 "La contraseña debe tener al menos 6 caracteres", (d, s))
    else if negb (name_pattern username) then
      Returned (fail_with 400 "Usuario sólo letras/números/_- permitidos", (d, s))
    else
      users ← readJson d USERS_FILE;
      found ← array_find (same_name username) users;
      if negb (falsy found) then
        Returned (fail_with 409 "Usuario ya existe", (d, s))
      else
        let hash := bcrypt_hash password salt in
        let newUser := newUser now username hash iso in
        users ← array_push users newUser;
        let d := writeJson d USERS_FILE users in
        Returned (Sent 200 (JObj [("ok", JBool true); ("username", JStr username);
                                  ("id", JNum now)]),
                  (d, Some (JNum now)))).

(** [bcrypt.compare(password, user.passwordHash)]: rejects unless the
    hash is a string. *)
Definition verify (password : string) (user : json) : exc bool :=
  match get_prop user "passwordHash" with
  | Some (JStr hash) => Returned (bcrypt_compare password hash)
  | _ => Thrown
  end.

(** [POST /api/login] *)
Definition login (d : disk) (s : session) (body : json) : outcome * (disk * session) :=
  guarded (d, s) (
    username ← destructure body "username";
    password ← destructure body "password";
    username ← trim <$> text_of username;
    password ← text_of password;
    if bool_decide (username = "") || bool_decide (password = "") then
      Returned (fail_with 400 "Credenciales incompletas", (d, s))
    else
      users ← readJson d USERS_FILE;
      found ← array_find (same_name username) users;
      match found with
      | Some user =>
          if negb (truthy user) then
            Returned (fail_with 401 "Usuario/contraseña inválidos", (d, s))
          else
            ok ← verify password user;
            if negb ok then
              Returned (fail_with 401 "Usuario/contraseña inválidos", (d, s))
            else
              Returned (Sent 200 (object_opt
                          [("ok", Some (JBool true));
                           ("username", get_prop user "username");
                           ("id", get_prop user "id");
                           ("avatarUrl", Some (or_else (get_prop user "avatarUrl") (JStr "")))]),
                        (d, get_prop user "id"))
      | None => Returned (fail_with 401 "Usuario/contraseña inválidos", (d, s))
      end).

(** [POST /api/logout] *)
Definition logout (d : disk) (s : session) : outcome * (disk * session) :=
  (Sent 200 (JObj [("ok", JBool true)]), (d, None)).

(** [GET /api/me]; the handler has no [try]. *)
Definition me (d : disk) (s : session) : outcome :=
  if falsy s then Sent 200 (JObj [("logged", JBool false)])
  else
    match users ← readJson d USERS_FILE; array_find (same_id s) users with
    | Returned (Some user) =>
        if negb (truthy user) then Sent 200 (JObj [("logged", JBool false)])
        else Sent 200 (object_opt
               [("logged", Some (JBool true));
                ("username", get_prop user "username");
                ("avatarUrl", Some (or_else (get_prop user "avatarUrl") (JStr "")))])
    | Returned None => Sent 200 (JObj [("logged", JBool false)])
    | Thrown => NoReply
    end.

(** [POST /api/me/avatar]; the handler has no [try], so a step that throws
    leaves the request without a reply and the files as they were. *)
Definition me_avatar (d : disk) (s : session) (body : json) : outcome * disk :=
  if falsy s then (fail_with 401 "No autenticado", d)
  else
    match
      avatarUrl ← destructure body "avatarUrl";
      users ← readJson d USERS_FILE;
      idx ← array_findIndex (same_id s) users;
      match idx, users with
      | Some idx, JArr items =>
          match items !! idx with
          | Some user =>
              user ← assign_prop user "avatarUrl" (or_else avatarUrl (JStr ""));
              let users := JArr (<[idx := user]> items) in
              Returned (Sent 200 (JObj [("ok", JBool true)]),
                        writeJson d USERS_FILE users)
          | None => Thrown
          end
      | _, _ => Returned (fail_with 404 "Usuario no encontrado", d)
      end
    with
    | Returned r => r
    | Thrown => (NoReply, d)
    end.

(** [POST /api/saveResponse]; [iso] is what [new Date().toISOString()]
    returns. *)
Definition saveResponse (d : disk) (body : json) (iso : string) : outcome * disk :=
  guarded d (
    let body := if truthy body then body else JObj [] in
    body ← assign_prop body "timestamp" (JStr iso);
    arr ← readJson d RESP_FILE;
    arr ← array_push arr body;
    let d := writeJson d RESP_FILE arr in
    Returned (Sent 200 (JObj [("ok", JBool true)]), d)).

(** [POST /api/saveLogin] *)
Definition saveLogin (d : disk) (body : json) (iso : string) : outcome * disk :=
  guarded d (
    let body := if truthy body then body else JObj [] in
    let username := get_prop body "username" in
    let avatarUrl := get_prop body "avatarUrl" in
    username ← text_of username;
    let entry := JObj [("username", JStr (trim username));
                       ("avatarUrl", or_else avatarUrl (JStr ""));
                       ("timestamp", JStr iso)] in
    arr ← readJson d LOGINS_FILE;
    arr ← array_push arr entry;
    let d := writeJson d LOGINS_FILE arr in
    Returned (Sent 200 (JObj [("ok", JBool true)]), d)).

(** *** The server as a whole *)

(** A request that may write a file or the session, with what the handler
    takes from the environment *)
Inductive request : Type :=
  | Register (body : json) (salt : string) (now : float) (iso : string)
  | Login (body : json)
  | Logout
  | SetAvatar (body : json)
  | SaveResponse (body : json) (iso : string)
  | SaveLogin (body : json) (iso : string).

(** Serving a request that comes with the session [s] *)
Definition serve (d : disk) (s : session) (r : request) : outcome * (disk * session) :=
  match r with
  | Register body salt now iso => register d s body salt now iso
  | Login body => login d s body
  | Logout => logout d s
  | SetAvatar body => let (o, d) := me_avatar d s body in (o, (d, s))
  | SaveResponse body iso => let (o, d) := saveResponse d body iso in (o, (d, s))
  | SaveLogin body iso => let (o, d) := saveLogin d body iso in (o, (d, s))
  end.

(** The data directory after a sequence of requests, each with the session
    of the client that sent it *)
Definition after (d : disk) (requests : list (session * request)) : disk :=
  foldl (λ d r, (serve d r.1 r.2).2.1) d requests.

(** The data directory after a sequence of [POST /api/saveResponse]
    requests, each a body and the time it arrived *)
Definition submit_responses (d : disk) (payloads : list (json * string)) : disk :=
  foldl (λ d p, (saveResponse d p.1 p.2).2) d payloads.

(** [GET /api/download] *)
Definition download (d : disk) : outcome :=
  match
    responses ← readJson d RESP_FILE;
    logins ← readJson d LOGINS_FILE;
    Returned (Sent 200 (JObj [("responses", responses); ("logins", logins)]))
  with
  | Returned r => r
  | Thrown => fail_with 500 "Error interno"
  end.

Definition internal_error : outcome := fail_with 500 "Error interno".

(** [GET /api/avatar/:username]; [param] is [req.params.username]. *)
Definition avatar (param : string) : calling outcome :=
  let username := trim param in
  if bool_decide (username = "") then Done (fail_with 400 "Falta username")
  else
    Fetch ("https://api.roblox.com/users/get-by-username?username="
           +:+ encodeURIComponent username) (λ ures,
      match ures with
      | Unreachable => Done internal_error
      | Response false _ => Done (fail_with 502 "Error consultando Roblox")
      | Response true None => Done internal_error
      | Response true (Some ud) =>
          if negb (truthy ud) || falsy (get_prop ud "Id") then
            Done (fail_with 404 "Usuario Roblox no encontrado")
          else
            match to_String number_to_string (default JNull (get_prop ud "Id")) with
            | Thrown => Done internal_error
            | Returned uid =>
                Fetch ("https://thumbnails.roblox.com/v1/users/avatar-headshot?userIds="
                       +:+ uid +:+ "&size=150x150&format=Png&isCircular=false") (λ thumbRes,
                  match thumbRes with
                  | Unreachable => Done internal_error
                  | Response false _ => Done (fail_with 502 "No se pudo obtener miniatura")
                  | Response true None => Done internal_error
                  | Response true (Some j) =>
                      let imageUrl := or_else (image_of j) (JStr "") in
                      if negb (truthy imageUrl) then Done (fail_with 404 "Sin imagen")
                      else Done (Sent 200 (JObj [("imageUrl", imageUrl)]))
                  end)
            end
      end).

End Server.

(** The file a request may write: the one its handler passes to
    [writeJson]. *)
Definition written_file (r : request) : option file :=
  match r with
  | Register _ _ _ _ | SetAvatar _ => Some USERS_FILE
  | SaveResponse _ _ => Some RESP_FILE
  | SaveLogin _ _ => Some LOGINS_FILE
  | Login _ | Logout => None
  end.

(** ** The page's own copy, [recopilacion.js]

    The first part of [src/3.js] keeps the same two logs in the browser's
    [localStorage].  What the page passes to these functions is taken to be
    a JSON value. *)

(** The two keys of [localStorage] the script uses *)
Inductive storage_key : Type :=
  | STORAGE_KEY_RESPONSES
  | STORAGE_KEY_LOGINS.

#[global] Instance storage_key_eq_dec : EqDecision storage_key.
Proof. solve_decision. Defined.

#[global] Instance storage_key_countable : Countable storage_key.
Proof.
  refine (inj_countable' (λ k, match k with
                               | STORAGE_KEY_RESPONSES => false
                               | STORAGE_KEY_LOGINS => true
                               end)
                         (λ b : bool, if b then STORAGE_KEY_LOGINS
                                      else STORAGE_KEY_RESPONSES) _).
  by intros [].
Defined.

(** The items of [localStorage], by key *)
Abbreviation storage := (gmap storage_key text).

(** [readArray(key)]: [raw ? JSON.parse(raw) : []], and [[]] when that
    throws; a missing item is [null]. *)
Definition readArray (st : storage) (key : storage_key) : json :=
  match st !! key with
  | Some (Denotes v) => v
  | Some Blank | Some Garbled | None => JArr []
  end.

(** [writeArray(key, arr)]: the item gets the text
    [JSON.stringify(arr, null, 2)]. *)
Definition writeArray (st : storage) (key : storage_key) (arr : json) : storage :=
  <[key := Denotes (as_written arr)]> st.

(** [recopilacionSaveResponse(responseObj)] *)
Definition recopilacionSaveResponse (st : storage) (responseObj : json) : exc storage :=
  arr ← array_push (readArray st STORAGE_KEY_RESPONSES) responseObj;
  Returned (writeArray st STORAGE_KEY_RESPONSES arr).

(** [recopilacionSaveLogin(loginObj)]; [iso] is what
    [new Date().toISOString()] returns.  Reading a property of [null]
    throws. *)
Definition recopilacionSaveLogin (st : storage) (loginObj : json) (iso : string) : exc storage :=
  match loginObj with
  | JNull => Thrown
  | _ =>
      let safe := JObj [("username", or_else (get_prop loginObj "username") (JStr "demo_user"));
                        ("avatarUrl", or_else (get_prop loginObj "avatarUrl") (JStr ""));
                        ("timestamp", or_else (get_prop loginObj "timestamp") (JStr iso));
                        ("note", JStr "Demo only -  passwords collected")] in
      arr ← array_push (readArray st STORAGE_KEY_LOGINS) safe;
      Returned (writeArray st STORAGE_KEY_LOGINS arr)
  end.

(** [recopilacionGetAll()] *)
Definition recopilacionGetAll (st : storage) : json :=
  JObj [("responses", readArray st STORAGE_KEY_RESPONSES);
        ("logins", readArray st STORAGE_KEY_LOGINS)].

(** [recopilacionClear()] *)
Definition recopilacionClear (st : storage) : storage :=
  delete STORAGE_KEY_LOGINS (delete STORAGE_KEY_RESPONSES st).

(** ** Sample data, for running the handlers *)

Module Sample.

(** No sample converts a number to a string. *)
Definition number_to_string (x : float) : string := "0".

(** A stand-in for bcrypt: the salt, a colon and the password; comparing
    reads the password back after the colon. *)
Definition hash (password salt : string) : string := salt +:+ ":" +:+ password.

Fixpoint after_colon (s : string) : string :=
  match s with
  | String c rest => if bool_decide (c = ":"%char) then rest else after_colon rest
  | EmptyString => EmptyString
  end.

Definition compare (password hashed : string) : bool :=
  bool_decide (after_colon hashed = password).

(** [{ username, password }] *)
Definition credentials (username password : string) : json :=
  JObj [("username", JStr username); ("password", JStr password)].

(** The data directory after [ensureDataFiles] on an empty directory *)
Definition fresh : disk := ensureDataFiles ∅.

Definition ana : json :=
  JObj [("id", JNum 1000); ("username", JStr "Ana_01");
        ("passwordHash", JStr "s1:secret1"); ("avatarUrl", JStr "");
        ("createdAt", JStr "2024-05-01T10:00:00.000Z")].

Definition bea : json :=
  JObj [("id", JNum 2000); ("username", JStr "bea");
        ("passwordHash", JStr "s2:hunter22"); ("avatarUrl", JStr "");
        ("createdAt", JStr "2024-05-02T10:00:00.000Z")].

(** A directory whose users file holds two users *)
Definition two_users : disk := writeJson fresh USERS_FILE (JArr [ana; bea]).

Definition noon : string := "2024-05-03T12:00:00.000Z".

(** Requests served after a registration: the new user sets an avatar,
    someone else registers, a survey response and a login record come in. *)
Definition afterwards : list (session * request) :=
  [(Some (JNum 3000), SetAvatar (JObj [("avatarUrl", JStr "https://example.org/c.png")]));
   (None, Register (credentials "dan" "secret4") "s4" 4000 noon);
   (None, SaveResponse (JObj [("q1", JStr "no")]) noon);
   (None, SaveLogin (credentials "dan" "secret4") noon)].

(** The record of a user who registered at the clock reading 1000, the id
    Ana_01 has, and the users file after that *)
Definition carl : json := newUser 1000 "carl" "s3:secret3" noon.

Definition repeated_id : disk := writeJson fresh USERS_FILE (JArr [ana; bea; carl]).

(** A body for [POST /api/me/avatar] *)
Definition new_avatar : json := JObj [("avatarUrl", JStr "https://example.org/bea.png")].

(** Three survey responses: an object, an array and [null] *)
Definition surveys : list (json * string) :=
  [(JObj [("q1", JStr "yes"); ("timestamp", JStr "1999")], "2024-05-03T12:00:01.000Z");
   (JArr [JNum 1; JNum 2], "2024-05-03T12:00:02.000Z");
   (JNull, "2024-05-03T12:00:03.000Z")].

(** A data directory whose responses file is not JSON *)
Definition broken_responses : disk := <[RESP_FILE := Garbled]> fresh.

(** A [localStorage] whose responses item is not JSON and whose logins item
    holds one record *)
Definition page : storage :=
  <[STORAGE_KEY_RESPONSES := Garbled]>
    (<[STORAGE_KEY_LOGINS := Denotes (JArr [JObj [("username", JStr "ana")]])]> ∅).

End Sample.

(** ** Facts about the operators *)

Lemma lookup_set_prop_same k x fields : lookup_prop k (set_prop k x fields) = Some x.
Proof.
  induction fields as [|[k' x'] rest IH]; simpl.
  - by rewrite bool_decide_eq_true_2.
  - case_bool_decide as Hk; simpl.
    + by rewrite bool_decide_eq_true_2.
    + by rewrite bool_decide_eq_false_2.
Qed.

Lemma lookup_set_prop_other k k' x fields :
  k ≠ k' → lookup_prop k' (set_prop k x fields) = lookup_prop k' fields.
Proof.
  intros Hne. induction fields as [|[k0 x0] rest IH]; simpl.
  - by rewrite bool_decide_eq_false_2.
  - case_bool_decide as Hk; simpl.
    + subst k0. by rewrite !bool_decide_eq_false_2.
    + by rewrite IH.
Qed.

(** Setting a property keeps the names and their order, but for a new
    name, which goes last. *)
Lemma keys_set_prop k x fields :
  keys (set_prop k x fields) = if bool_decide (k ∈ keys fields) then keys fields else keys fields ++ [k].
Proof.
  unfold keys. induction fields as [|[k' x'] rest IH]; csimpl; [done|].
  destruct (decide (k' = k)) as [->|Hk].
  - rewrite bool_decide_eq_true_2 by done. csimpl.
    by rewrite bool_decide_eq_true_2 by set_solver.
  - rewrite bool_decide_eq_false_2 by done. csimpl. rewrite IH.
    destruct (decide (k ∈ rest.*1)).
    + by rewrite !bool_decide_eq_true_2 by set_solver.
    + by rewrite !bool_decide_eq_false_2 by set_solver.
Qed.

(** With distinct names, the one property [k] of the result is the one set. *)
Lemma set_prop_only k x fields y :
  NoDup (keys fields) → (k, y) ∈ set_prop k x fields → y = x.
Proof.
  unfold keys. induction fields as [|[k' x'] rest IH]; csimpl; intros Hnd Hin.
  - apply list_elem_of_singleton in Hin. by injection Hin.
  - apply NoDup_cons in Hnd as [Hk' Hnd]. case_bool_decide as Hk; subst.
    + apply elem_of_cons in Hin as [Hin|Hin]; [by injection Hin|].
      destruct Hk'. apply list_elem_of_fmap. by exists (k, y).
    + apply elem_of_cons in Hin as [Hin|Hin]; [|by apply IH].
      by injection Hin as -> ->.
Qed.

Lemma get_prop_object v k x : get_prop v k = Some x → ∃ fields, v = JObj fields.
Proof. destruct v; simpl; try done. eauto. Qed.

Lemma get_prop_truthy v k x : get_prop v k = Some x → truthy v = true.
Proof. intros H. by destruct (get_prop_object _ _ _ H) as [fields ->]. Qed.

(** *** What is written *)

Lemma json_nested_ind (P : json → Prop) :
  P JNull → (∀ b, P (JBool b)) → (∀ x, P (JNum x)) → (∀ s, P (JStr s)) →
  (∀ items, Forall P items → P (JArr items)) →
  (∀ fields, Forall (λ p, P p.2) fields → P (JObj fields)) →
  ∀ v, P v.
Proof.
  intros Hnull Hbool Hnum Hstr Harr Hobj.
  fix IH 1. intros [| b | x | s | items | fields];
    [apply Hnull | apply Hbool | apply Hnum | apply Hstr | |].
  - apply Harr. induction items as [|v items IHitems]; constructor; [apply IH | exact IHitems].
  - apply Hobj. induction fields as [|[k v] fields IHfields]; constructor;
      [apply IH | exact IHfields].
Qed.

(** Writing what was read from a written text writes the same text. *)
Lemma as_written_idemp v : as_written (as_written v) = as_written v.
Proof.
  induction v as [| b | x | s | items IH | fields IH] using json_nested_ind; try done.
  - simpl. destruct (PrimFloat.classify x) eqn:Hx; simpl; by rewrite ?Hx.
  - simpl. f_equal. rewrite <-list_fmap_compose.
    apply Forall_fmap_ext_1. eapply Forall_impl; [exact IH|]. by intros v Hv.
  - simpl. f_equal. rewrite <-list_fmap_compose.
    apply Forall_fmap_ext_1. eapply Forall_impl; [exact IH|].
    intros [k v] Hv. simpl in *. by rewrite Hv.
Qed.

Lemma as_written_idemp_list (items : list json) :
  as_written <$> (as_written <$> items) = as_written <$> items.
Proof.
  rewrite <-list_fmap_compose. apply list_fmap_ext. intros i v _. apply as_written_idemp.
Qed.

Lemma lookup_prop_written k fields :
  lookup_prop k (prod_map id as_written <$> fields) = as_written <$> lookup_prop k fields.
Proof.
  induction fields as [|[k' x] rest IH]; csimpl; [done|]. by case_bool_decide.
Qed.

Lemma keys_written fields : keys (prod_map id as_written <$> fields) = keys fields.
Proof.
  unfold keys. rewrite <-list_fmap_compose. apply list_fmap_ext. by intros i [k x] _.
Qed.

Lemma elem_of_written (k : string) y (fields : list (string * json)) :
  (k, y) ∈ prod_map id as_written <$> fields → ∃ x, (k, x) ∈ fields ∧ y = as_written x.
Proof.
  intros ([k' x] & Heq & Hin)%list_elem_of_fmap. simpl in Heq. injection Heq as -> ->.
  by exists x.
Qed.

Lemma get_prop_written v k : get_prop (as_written v) k = as_written <$> get_prop v k.
Proof.
  destruct v as [| b | x | s | items | fields]; simpl; try done.
  - by destruct (PrimFloat.classify x).
  - apply lookup_prop_written.
Qed.

Lemma name_of_written r : name_of (as_written r) = name_of r.
Proof.
  unfold name_of. rewrite get_prop_written.
  destruct (get_prop r "username") as [[| b | x | s | items | fields]|]; simpl; try done.
  by destruct (PrimFloat.classify x).
Qed.

Lemma hash_of_written r : hash_of (as_written r) = hash_of r.
Proof.
  unfold hash_of. rewrite get_prop_written.
  destruct (get_prop r "passwordHash") as [[| b | x | s | items | fields]|]; simpl; try done.
  by destruct (PrimFloat.classify x).
Qed.



(** *** Characters and names *)

Ltac each_char c := destruct c as [[] [] [] [] [] [] [] []]; vm_compute; try done.

Lemma name_char_lower c : name_char c = true → name_char (lower_char c) = true.
Proof. each_char c. Qed.

Lemma name_char_of_lower c : name_char (lower_char c) = true → name_char c = true.
Proof. each_char c. Qed.

Lemma name_char_no_space c : name_char c = true → is_space c = false.
Proof. each_char c. Qed.

Lemma toLowerCase_length s : String.length (toLowerCase s) = String.length s.
Proof. induction s; simpl; congruence. Qed.

Lemma all_chars_lower s : all_chars name_char s = all_chars name_char (toLowerCase s).
Proof.
  induction s as [|c s IH]; simpl; [done|]. rewrite IH. f_equal.
  destruct (name_char c) eqn:Hc.
  - by rewrite name_char_lower.
  - destruct (name_char (lower_char c)) eqn:Hl; [|done].
    apply name_char_of_lower in Hl. congruence.
Qed.

(** A name that differs from a well-formed name only in the case of its
    letters is well formed. *)
Lemma name_pattern_case u v :
  toLowerCase v = toLowerCase u → name_pattern v = name_pattern u.
Proof.
  intros H. unfold name_pattern.
  rewrite (all_chars_lower v), (all_chars_lower u), H.
  by rewrite <-(toLowerCase_length v), <-(toLowerCase_length u), H.
Qed.

Lemma trimStart_name s : all_chars name_char s = true → trimStart s = s.
Proof.
  destruct s as [|c s]; simpl; [done|]. intros [Hc _]%andb_true_iff.
  by rewrite (name_char_no_space c Hc).
Qed.

Lemma trimEnd_name s : all_chars name_char s = true → trimEnd s = s.
Proof.
  induction s as [|c s IH]; simpl; [done|]. intros [Hc Hs]%andb_true_iff.
  rewrite (IH Hs). destruct s; [|done]. by rewrite (name_char_no_space c Hc).
Qed.

(** Trimming leaves a well-formed name as it is. *)
Lemma trim_name s : name_pattern s = true → trim s = s.
Proof.
  unfold name_pattern, trim. intros [_ H]%andb_true_iff.
  by rewrite trimStart_name, trimEnd_name.
Qed.

Lemma name_pattern_length s : name_pattern s = true → (2 ≤ String.length s)%nat.
Proof.
  unfold name_pattern. intros [[H _]%andb_true_iff _]%andb_true_iff.
  by apply Nat.leb_le.
Qed.

(** *** The record store *)

Lemma readJson_writeJson d f v : readJson (writeJson d f v) f = Returned (as_written v).
Proof. unfold readJson, writeJson. by rewrite lookup_insert_eq. Qed.

Lemma readJson_writeJson_other d f g v :
  f ≠ g → readJson (writeJson d f v) g = readJson d g.
Proof. intros Hne. unfold readJson, writeJson. by rewrite lookup_insert_ne. Qed.

Lemma readJson_missing d f : d !! f = None → readJson d f = Thrown.
Proof. unfold readJson. by intros ->. Qed.

(** *** Searching an array *)

Lemma findIndex_Some p items i :
  findIndex p items = Returned (Some i) →
  ∃ item, items !! i = Some item ∧ p item = Returned true
          ∧ ∀ j other, (j < i)%nat → items !! j = Some other → p other = Returned false.
Proof.
  revert i. induction items as [|x items IH]; intros i; simpl; [done|].
  destruct (p x) as [[]|] eqn:Hx; simpl; [| |done].
  - intros [= <-]. exists x. split; [done|]. split; [done|]. intros j other Hj. lia.
  - destruct (findIndex p items) as [[i'|]|]; simpl; try done.
    intros [= <-]. destruct (IH i' eq_refl) as (item & Hitem & Hp & Hbefore).
    exists item. split; [done|]. split; [done|].
    intros [|j] other Hj; simpl; [by intros [= <-]|]. apply Hbefore. lia.
Qed.

Lemma findIndex_None p items :
  findIndex p items = Returned None ↔ Forall (λ item, p item = Returned false) items.
Proof.
  induction items as [|x items IH]; simpl; [by split|].
  rewrite Forall_cons, <-IH.
  destruct (p x) as [[]|]; simpl; [naive_solver| |naive_solver].
  destruct (findIndex p items) as [[i|]|]; simpl; naive_solver.
Qed.

Lemma findIndex_first p items x :
  Forall (λ item, ∃ b, p item = Returned b) items → x ∈ items → p x = Returned true →
  ∃ i, findIndex p items = Returned (Some i).
Proof.
  induction 1 as [|y items [b Hy] Hall IH]; intros Hin Hx; [by apply elem_of_nil in Hin|].
  simpl. rewrite Hy. destruct b; simpl; [by eexists|].
  apply elem_of_cons in Hin as [->|Hin]; [congruence|].
  destruct (IH Hin Hx) as [i ->]. by eexists.
Qed.

Lemma destructure_prop body k x :
  get_prop body k = Some x → destructure body k = Returned (Some x).
Proof. intros H. destruct (get_prop_object _ _ _ H) as [fields ->]. simpl in *. by rewrite H. Qed.

Lemma same_name_name_of name u :
  same_name name u
  = match name_of u with
    | Some s => Returned (bool_decide (same_but_case s name))
    | None => Thrown
    end.
Proof. unfold same_name, name_of. by destruct (get_prop u "username") as [[]|]. Qed.

Lemma name_of_truthy u s : name_of u = Some s → truthy u = true.
Proof.
  unfold name_of. destruct (get_prop u "username") eqn:H; [|done].
  intros _. by eapply get_prop_truthy.
Qed.

(** *** The two logs *)

Lemma body_or_empty_truthy body : truthy (if truthy body then body else JObj []) = true.
Proof. by destruct (truthy body) eqn:H. Qed.


Lemma assign_prop_truthy v k x : truthy v = true → ∃ v', assign_prop v k x = Returned v'.
Proof. destruct v; simpl; try done; eauto. Qed.

(** A survey response is appended whenever the responses file holds an
    array. *)
Lemma saveResponse_appends d body iso old :
  readJson d RESP_FILE = Returned (JArr old) →
  ∃ stored,
    assign_prop (if truthy body then body else JObj []) "timestamp" (JStr iso) = Returned stored
    ∧ saveResponse d body iso = (replied_ok, writeJson d RESP_FILE (JArr (old ++ [stored]))).
Proof.
  intros Hread.
  destruct (assign_prop_truthy _ "timestamp" (JStr iso) (body_or_empty_truthy body))
    as [stored Hstored].
  exists stored. split; [done|].
  unfold saveResponse. simpl. rewrite Hstored. simpl. rewrite Hread. done.
Qed.

(** C9: from a responses file that holds an array, [N] requests to
    [POST /api/saveResponse] leave the file holding the old records followed
    by [N] new ones, one per request and in the order of the requests.  Each
    request rewrites the whole file, so the records are there as
    [JSON.stringify] writes them. *)
Theorem saveResponse_appends_in_order d old payloads :
  readJson d RESP_FILE = Returned (JArr old) →
  ∃ added,
    readJson (submit_responses d payloads) RESP_FILE
    = Returned (JArr ((if payloads is [] then old else as_written <$> old) ++ added))
    ∧ length added = length payloads
    ∧ Forall2 (λ p stored,
                 ∃ record,
                   assign_prop (if truthy p.1 then p.1 else JObj []) "timestamp" (JStr p.2)
                   = Returned record
                   ∧ stored = as_written record)
              payloads added.
Proof.
  revert d old. induction payloads as [|[body iso] rest IH]; intros d old Hread.
  - exists []. by rewrite app_nil_r.
  - destruct (saveResponse_appends d body iso old Hread) as (stored & Hstored & Hsave).
    unfold submit_responses. simpl. rewrite Hsave. simpl.
    destruct (IH (writeJson d RESP_FILE (JArr (old ++ [stored])))
                 (as_written <$> (old ++ [stored])))
      as (added & Hafter & Hlen & Hall); [apply readJson_writeJson|].
    exists (as_written stored :: added).
    assert ((if rest is [] then as_written <$> (old ++ [stored])
             else as_written <$> (as_written <$> (old ++ [stored])))
            = as_written <$> (old ++ [stored])) as Hkept.
    { destruct rest; [done | apply as_written_idemp_list]. }
    rewrite Hkept, fmap_app, <-app_assoc in Hafter.
    split; [done|]. split; [simpl; by rewrite Hlen|]. constructor; [|done]. by exists stored.
Qed.

(** C10, for a body that is an object with distinct property names: the
    record appended by [POST /api/saveResponse] carries the server's time
    as its one [timestamp], whatever [timestamp] the body had; every other
    property of the body is there as [JSON.stringify] writes it. *)
Theorem saveResponse_stamps_objects d old fields iso :
  readJson d RESP_FILE = Returned (JArr old) →
  NoDup (keys fields) →
  ∃ stored,
    (saveResponse d (JObj fields) iso).1 = replied_ok
    ∧ readJson (saveResponse d (JObj fields) iso).2 RESP_FILE
      = Returned (JArr ((as_written <$> old) ++ [JObj stored]))
    ∧ lookup_prop "timestamp" stored = Some (JStr iso)
    ∧ (∀ x, ("timestamp", x) ∈ stored → x = JStr iso)
    ∧ (∀ k, k ≠ "timestamp" → lookup_prop k stored = as_written <$> lookup_prop k fields).
Proof.
  intros Hread Hnodup.
  destruct (saveResponse_appends d (JObj fields) iso old Hread) as (stored & Hstored & Hsave).
  simpl in Hstored. injection Hstored as <-.
  exists (prod_map id as_written <$> set_prop "timestamp" (JStr iso) fields).
  rewrite Hsave. simpl. split; [done|]. split.
  { rewrite readJson_writeJson. simpl. by rewrite fmap_app. }
  split; [by rewrite lookup_prop_written, lookup_set_prop_same|]. split.
  - intros y (x & Hin & ->)%elem_of_written. by rewrite (set_prop_only _ _ _ _ Hnodup Hin).
  - intros k Hk. by rewrite lookup_prop_written, lookup_set_prop_other.
Qed.

(** *** Looking a user up by name *)

Lemma same_name_carries name u :
  is_Some (name_of u) → same_name name u = Returned (carries name u).
Proof.
  intros [s Hs]. rewrite same_name_name_of. unfold carries. by rewrite Hs.
Qed.

Lemma carries_truthy name u : carries name u = true → truthy u = true.
Proof.
  unfold carries. destruct (name_of u) eqn:H; [|done]. intros _. by eapply name_of_truthy.
Qed.

(** Among records that all have a name, [find] returns the first that
    carries the name looked for. *)
Lemma find_same_name_hit name users r :
  Forall (λ r, is_Some (name_of r)) users → r ∈ users → carries name r = true →
  ∃ found, array_find (same_name name) (JArr users) = Returned (Some found)
           ∧ found ∈ users ∧ carries name found = true.
Proof.
  intros Hnamed Hin Hr.
  destruct (findIndex_first (same_name name) users r) as [i Hi].
  - eapply Forall_impl; [exact Hnamed|]. intros x Hx. rewrite same_name_carries by done. eauto.
  - done.
  - rewrite same_name_carries; [by rewrite Hr|]. by eapply Forall_forall in Hnamed.
  - destruct (findIndex_Some _ _ _ Hi) as (found & Hfound & Hp & _).
    exists found. simpl. rewrite Hi. simpl. rewrite Hfound. split; [done|].
    split; [by eapply list_elem_of_lookup_2|].
    rewrite same_name_name_of in Hp. unfold carries.
    destruct (name_of found); [|done]. by injection Hp.
Qed.

Lemma find_same_name_miss name users :
  Forall (λ r, is_Some (name_of r)) users → Forall (λ r, carries name r = false) users →
  array_find (same_name name) (JArr users) = Returned None.
Proof.
  intros Hnamed Hnone. simpl.
  assert (findIndex (same_name name) users = Returned None) as ->; [|done].
  apply findIndex_None. apply Forall_forall. intros x Hx.
  rewrite same_name_carries by by eapply Forall_forall in Hnamed.
  f_equal. by eapply Forall_forall in Hnone.
Qed.

Lemma null_or_not body : body = JNull ∨ body ≠ JNull.
Proof. destruct body; by eauto. Qed.

Lemma destructure_not_null body k :
  body ≠ JNull → destructure body k = Returned (get_prop body k).
Proof. by destruct body. Qed.

Lemma same_name_false name u :
  same_name name u = Returned false → is_Some (name_of u) ∧ carries name u = false.
Proof.
  rewrite same_name_name_of. unfold carries.
  destruct (name_of u); [|done]. intros [= H]. split; [eauto | exact H].
Qed.

(** *** Changing the avatar *)

Lemma findIndex_at p items i x :
  items !! i = Some x → p x = Returned true →
  (∀ j y, (j < i)%nat → items !! j = Some y → p y = Returned false) →
  findIndex p items = Returned (Some i).
Proof.
  revert i. induction items as [|y items IH]; intros i Hi Hx Hbefore; [done|].
  destruct i as [|i]; simpl in *.
  - injection Hi as ->. by rewrite Hx.
  - rewrite (Hbefore 0%nat y) by (done || lia). simpl.
    rewrite (IH i Hi Hx); [done|]. intros j z Hj Hz. apply (Hbefore (S j)); [lia|done].
Qed.

Lemma same_id_hit s u :
  falsy s = false → same_id s u = Returned true → ∃ fields, u = JObj fields.
Proof.
  destruct s as [sid|]; [|done]. intros _. unfold same_id.
  destruct u; simpl; try done. eauto.
Qed.

(** A request to [POST /api/me/avatar] writes nothing, or sets the
    property [avatarUrl] of the first record whose id is the session's. *)
Lemma me_avatar_effect d s body :
  (me_avatar d s body).2 = d
  ∨ ∃ users idx fields,
      readJson d USERS_FILE = Returned (JArr users)
      ∧ findIndex (same_id s) users = Returned (Some idx)
      ∧ users !! idx = Some (JObj fields)
      ∧ me_avatar d s body
        = (replied_ok,
           writeJson d USERS_FILE
             (JArr (<[idx := JObj (set_prop "avatarUrl"
                                     (or_else (get_prop body "avatarUrl") (JStr "")) fields)]>
                      users))).
Proof.
  unfold me_avatar. destruct (falsy s) eqn:Hs; [by left|].
  destruct (null_or_not body) as [->|Hbody]; [by left|].
  rewrite destructure_not_null by done. simpl.
  destruct (readJson d USERS_FILE) as [arr|] eqn:Hread; simpl; [|by left].
  destruct arr as [| | | |users|]; simpl; try by left.
  destruct (findIndex (same_id s) users) as [[idx|]|] eqn:Hfind; simpl; try by left.
  destruct (findIndex_Some _ _ _ Hfind) as (user & Huser & Hhit & _).
  destruct (same_id_hit _ _ Hs Hhit) as [fields ->].
  rewrite Huser. simpl. right. by exists users, idx, fields.
Qed.

(** *** What requests keep of the users file *)

Lemma name_of_Some u name : name_of u = Some name ↔ get_prop u "username" = Some (JStr name).
Proof.
  unfold name_of. destruct (get_prop u "username") as [[]|]; naive_solver.
Qed.

Lemma same_account_refl r : same_account r r.
Proof. split; [done|]. split; [done | by left]. Qed.

Lemma same_account_trans r1 r2 r3 :
  same_account r1 r2 → same_account r2 r3 → same_account r1 r3.
Proof.
  unfold same_account. intros (-> & -> & Hid1) (-> & -> & Hid2).
  split; [done|]. split; [done|].
  destruct Hid1 as [<-|Hid1]; [done|]. right.
  destruct Hid2 as [->| ->]; [done|]. rewrite Hid1.
  destruct (get_prop r1 "id"); simpl; [|done]. by rewrite as_written_idemp.
Qed.

(** A record is still the same account as [JSON.stringify] writes it. *)
Lemma same_account_written r : same_account r (as_written r).
Proof.
  split; [apply name_of_written|]. split; [apply hash_of_written|].
  right. apply get_prop_written.
Qed.

Lemma same_account_avatar fields x :
  same_account (JObj fields) (JObj (set_prop "avatarUrl" x fields)).
Proof.
  unfold same_account, name_of, hash_of. simpl.
  rewrite !lookup_set_prop_other by done. split; [done|]. split; [done | by left].
Qed.

Lemma kept_refl users : Forall2 same_account users users.
Proof.
  apply Forall2_same_length_lookup_2; [done|]. intros i x y Hx Hy.
  assert (x = y) as -> by congruence. apply same_account_refl.
Qed.

Lemma kept_written users users' :
  Forall2 same_account users users' → Forall2 same_account users (as_written <$> users').
Proof.
  intros Hkept. apply Forall2_fmap_r. eapply Forall2_impl; [exact Hkept|].
  intros r r' Hr. eapply same_account_trans; [exact Hr | apply same_account_written].
Qed.

Lemma kept_avatar users idx fields x :
  users !! idx = Some (JObj fields) →
  Forall2 same_account users (<[idx := JObj (set_prop "avatarUrl" x fields)]> users).
Proof.
  intros Hidx. apply Forall2_same_length_lookup_2; [by rewrite length_insert|].
  intros i r r' Hr Hr'. destruct (decide (idx = i)) as [->|Hne].
  - rewrite list_lookup_insert_eq in Hr' by by eapply lookup_lt_Some.
    simplify_eq. apply same_account_avatar.
  - rewrite list_lookup_insert_ne in Hr' by done. simplify_eq. apply same_account_refl.
Qed.

Lemma extends_refl users : extends users users.
Proof. exists users, []. rewrite app_nil_r. split; [done | apply kept_refl]. Qed.

Lemma extends_trans u1 u2 u3 : extends u1 u2 → extends u2 u3 → extends u1 u3.
Proof.
  intros (k1 & n1 & -> & H1) (k2 & n2 & -> & H2).
  apply Forall2_app_inv_l in H2 as (k2a & k2b & Ha & Hb & ->).
  exists k2a, (k2b ++ n2). rewrite app_assoc. split; [done|].
  eapply Forall2_trans; [|exact H1|exact Ha].
  intros ???. apply same_account_trans.
Qed.

Lemma saveResponse_disk d body iso :
  (saveResponse d body iso).2 = d
  ∨ ∃ arr, (saveResponse d body iso).2 = writeJson d RESP_FILE arr.
Proof.
  unfold saveResponse. simpl.
  destruct (assign_prop _ _ _) as [stored|]; simpl; [|by left].
  destruct (readJson d RESP_FILE) as [arr|]; simpl; [|by left].
  destruct (array_push arr stored) as [arr'|]; simpl; [|by left].
  right. by eexists.
Qed.

Lemma carries_same_account name r r' :
  same_account r r' → carries name r' = carries name r.
Proof. intros (Hname & _). unfold carries. by rewrite Hname. Qed.

(** *** Starting the server *)

Lemma ensureDataFiles_lookup d f :
  ensureDataFiles d !! f = Some (default (Denotes (JArr [])) (d !! f)).
Proof.
  unfold ensureDataFiles. simpl.
  destruct f; repeat (case_match; simplify_map_eq); done.
Qed.

(** *** Ids *)

Lemma float_ltb_not_eqb x y : (x <? y)%float = true → (x =? y)%float = false.
Proof.
  rewrite FloatAxioms.ltb_spec, FloatAxioms.eqb_spec. unfold SpecFloat.SFltb, SpecFloat.SFeqb.
  destruct (SpecFloat.SFcompare _ _) as [[]|]; congruence.
Qed.

Lemma float_below_negative_zero x y :
  PrimFloat.classify y = FloatClass.NZero → (x <? y)%float = true → (x =? 0)%float = false.
Proof.
  rewrite classify_spec, FloatAxioms.ltb_spec, FloatAxioms.eqb_spec.
  unfold SF64classify, SpecFloat.SFclassify, SpecFloat.SFltb, SpecFloat.SFeqb.
  change (FloatOps.Prim2SF 0) with (SpecFloat.S754_zero false).
  destruct (FloatOps.Prim2SF y) as [[]|[]| |[] m e]; try done;
    try (destruct (_ =? _)%Z; done).
  intros _. by destruct (FloatOps.Prim2SF x) as [[]|[]| |[] m e].
Qed.

(** A number below [y] is not [y] as [JSON.stringify] writes it. *)
Lemma below_not_written x y :
  (x <? y)%float = true → strict_eq (JNum x) (as_written (JNum y)) = false.
Proof.
  intros Hlt. simpl. destruct (PrimFloat.classify y) eqn:Hy; simpl; try done;
    try (by apply float_ltb_not_eqb).
  by eapply float_below_negative_zero.
Qed.

(** C8, as the code has it: for a session whose user id a record of the
    users file has, and a body that is not [null], [POST /api/me/avatar]
    rewrites the users file with one change: the property [avatarUrl] of the
    first record with that id, which is the record of the session's user when
    no earlier record has the same id.  Every other property of that record,
    every other record, the number and the order of the records are as
    [JSON.stringify] writes them, so as they were in a file that it wrote;
    the other files are as they were. *)
Theorem me_avatar_changes_only_avatarUrl d sid body users idx user :
  truthy sid = true →
  body ≠ JNull →
  readJson d USERS_FILE = Returned (JArr users) →
  Forall (λ r, r ≠ JNull) users →
  users !! idx = Some user →
  strict_eq_opt (get_prop user "id") (Some sid) = true →
  (∀ j r, (j < idx)%nat → users !! j = Some r →
          strict_eq_opt (get_prop r "id") (Some sid) = false) →
  ∃ fields fields' users',
    user = JObj fields
    ∧ (me_avatar d (Some sid) body).1 = replied_ok
    ∧ readJson (me_avatar d (Some sid) body).2 USERS_FILE = Returned (JArr users')
    ∧ length users' = length users
    ∧ users' !! idx = Some (JObj fields')
    ∧ (∀ j, j ≠ idx → users' !! j = as_written <$> users !! j)
    ∧ lookup_prop "avatarUrl" fields'
      = Some (as_written (or_else (get_prop body "avatarUrl") (JStr "")))
    ∧ (∀ k, k ≠ "avatarUrl" → lookup_prop k fields' = as_written <$> lookup_prop k fields)
    ∧ keys fields' = (if bool_decide ("avatarUrl" ∈ keys fields) then keys fields
                      else keys fields ++ ["avatarUrl"])
    ∧ (∀ f, f ≠ USERS_FILE → (me_avatar d (Some sid) body).2 !! f = d !! f)
    ∧ (as_written <$> users = users →
       (∀ j, j ≠ idx → users' !! j = users !! j)
       ∧ (∀ k, k ≠ "avatarUrl" → lookup_prop k fields' = lookup_prop k fields)).
Proof.
  intros Hsid Hbody Hread Hnonnull Huser Hid Hfirst.
  assert (∀ r, r ∈ users → same_id (Some sid) r
                            = Returned (strict_eq_opt (get_prop r "id") (Some sid))) as Hsame.
  { intros r Hr. pose proof (proj1 (Forall_forall _ _) Hnonnull r Hr). by destruct r. }
  assert (findIndex (same_id (Some sid)) users = Returned (Some idx)) as Hfind.
  { apply findIndex_at with user; [done| |].
    - rewrite Hsame by by eapply list_elem_of_lookup_2. by rewrite Hid.
    - intros j r Hj Hr. rewrite Hsame by by eapply list_elem_of_lookup_2.
      by rewrite (Hfirst j r). }
  destruct (same_id_hit (Some sid) user) as [fields ->].
  { simpl. by rewrite Hsid. }
  { rewrite Hsame by by eapply list_elem_of_lookup_2. by rewrite Hid. }
  set (changed := set_prop "avatarUrl" (or_else (get_prop body "avatarUrl") (JStr "")) fields).
  assert (me_avatar d (Some sid) body
          = (replied_ok, writeJson d USERS_FILE (JArr (<[idx := JObj changed]> users)))) as Hdone.
  { unfold me_avatar. simpl. rewrite Hsid. simpl.
    rewrite destructure_not_null by done. simpl. rewrite Hread. simpl.
    rewrite Hfind. simpl. by rewrite Huser. }
  exists fields, (prod_map id as_written <$> changed),
         (as_written <$> <[idx := JObj changed]> users).
  pose proof (lookup_lt_Some _ _ _ Huser) as Hlt.
  assert (∀ j, j ≠ idx → (as_written <$> <[idx := JObj changed]> users) !! j
                          = as_written <$> users !! j) as Hothers.
  { intros j Hj. by rewrite list_lookup_fmap, list_lookup_insert_ne. }
  assert (∀ k, k ≠ "avatarUrl" → lookup_prop k (prod_map id as_written <$> changed)
                                 = as_written <$> lookup_prop k fields) as Hprops.
  { intros k Hk. unfold changed. by rewrite lookup_prop_written, lookup_set_prop_other. }
  rewrite Hdone. simpl. split; [done|]. split; [done|].
  split; [apply readJson_writeJson|].
  split; [by rewrite length_fmap, length_insert|].
  split; [by rewrite list_lookup_fmap, list_lookup_insert_eq|].
  split; [exact Hothers|].
  split; [unfold changed; by rewrite lookup_prop_written, lookup_set_prop_same|].
  split; [exact Hprops|].
  split; [rewrite keys_written; apply keys_set_prop|].
  split; [intros f Hf; unfold writeJson; by rewrite lookup_insert_ne|].
  intros Hclean. split.
  - intros j Hj. by rewrite Hothers, <-list_lookup_fmap, Hclean.
  - intros k Hk. rewrite Hprops by done.
    assert (prod_map id as_written <$> fields = fields) as Hfields.
    { apply (f_equal (λ l, l !! idx)) in Hclean.
      rewrite list_lookup_fmap, Huser in Hclean. simpl in Hclean. congruence. }
    by rewrite <-lookup_prop_written, Hfields.
Qed.

(** *** Unique names *)

Lemma lower_names_same_account users users' :
  Forall2 same_account users users' → lower_names users' = lower_names users.
Proof.
  unfold lower_names. induction 1 as [|r r' users users' (Hname & _) _ IH]; [done|].
  csimpl. by rewrite Hname, IH.
Qed.

Lemma lower_names_snoc users record name :
  name_of record = Some name →
  lower_names (users ++ [record]) = lower_names users ++ [toLowerCase name].
Proof. intros Hname. unfold lower_names. rewrite omap_app. csimpl. by rewrite Hname. Qed.

Lemma lower_names_free users name :
  Forall (λ r, carries name r = false) users → toLowerCase name ∉ lower_names users.
Proof.
  unfold lower_names. induction 1 as [|r users Hr _ IH]; csimpl; [apply not_elem_of_nil|].
  unfold carries in Hr. destruct (name_of r) as [s|]; csimpl; [|done].
  apply not_elem_of_cons. split; [|done].
  apply bool_decide_eq_false in Hr. congruence.
Qed.

(** *** The current user *)

(** X2: [GET /api/me] answers that nobody is logged in when the session
    has no user id, and when no record of the users file has the id of the
    session. *)
Theorem me_anonymous d s users :
  readJson d USERS_FILE = Returned (JArr users) →
  Forall (λ r, r ≠ JNull) users →
  falsy s = true ∨ Forall (λ r, strict_eq_opt (get_prop r "id") s = false) users →
  me d s = Sent 200 (JObj [("logged", JBool false)]).
Proof.
  intros Hread Hnonnull Hnone. unfold me.
  destruct (falsy s) eqn:Hs; [done|]. destruct Hnone as [Hfalsy|Hnone]; [done|].
  rewrite Hread. simpl.
  assert (findIndex (same_id s) users = Returned None) as ->; [|done].
  apply findIndex_None. apply Forall_forall. intros r Hr.
  pose proof (proj1 (Forall_forall _ _) Hnonnull r Hr) as Hnull.
  pose proof (proj1 (Forall_forall _ _) Hnone r Hr) as Hid.
  destruct r; simpl in *; by rewrite ?Hid.
Qed.

(** *** More on the handlers that take no parameter *)

(** A survey response is refused and nothing is written, or it is
    appended. *)
Lemma saveResponse_effect d body iso :
  saveResponse d body iso = (fail_with 500 "Error interno", d)
  ∨ ∃ old stored,
      readJson d RESP_FILE = Returned (JArr old)
      ∧ saveResponse d body iso = (replied_ok, writeJson d RESP_FILE (JArr (old ++ [stored]))).
Proof.
  destruct (readJson d RESP_FILE) as [arr|] eqn:Hread.
  - destruct arr as [| | | |old|];
      try (left; unfold saveResponse; simpl;
           destruct (assign_prop _ _ _); simpl; [|done]; by rewrite Hread).
    right. destruct (saveResponse_appends d body iso old Hread) as (stored & _ & Hsave).
    by exists old, stored.
  - left. unfold saveResponse. simpl.
    destruct (assign_prop _ _ _); simpl; [|done]. by rewrite Hread.
Qed.

(** X4: a session whose user id no record has gets 404 from
    [POST /api/me/avatar], and nothing is written. *)
Theorem me_avatar_unknown_user d sid body users :
  truthy sid = true →
  body ≠ JNull →
  readJson d USERS_FILE = Returned (JArr users) →
  Forall (λ r, r ≠ JNull) users →
  Forall (λ r, strict_eq_opt (get_prop r "id") (Some sid) = false) users →
  me_avatar d (Some sid) body = (fail_with 404 "Usuario no encontrado", d)
  ∧ kind_of (me_avatar d (Some sid) body).1 = Some NotFoundError.
Proof.
  intros Hsid Hbody Hread Hnonnull Hnone.
  assert (me_avatar d (Some sid) body = (fail_with 404 "Usuario no encontrado", d)) as Hme.
  { unfold me_avatar. simpl. rewrite Hsid. simpl.
    rewrite destructure_not_null by done. simpl. rewrite Hread. simpl.
    assert (findIndex (same_id (Some sid)) users = Returned None) as ->; [|done].
    apply findIndex_None. apply Forall_forall. intros r Hr.
    pose proof (proj1 (Forall_forall _ _) Hnonnull r Hr) as Hnull.
    pose proof (proj1 (Forall_forall _ _) Hnone r Hr) as Hid.
    destruct r; simpl in *; by rewrite ?Hid. }
  by rewrite Hme.
Qed.

(** X5: what [GET /api/download] returns after a survey response was
    saved: the responses that were there followed by the new one, as
    [JSON.stringify] wrote them, and the logins as they were. *)
Theorem download_after_saveResponse d body iso old logins :
  readJson d RESP_FILE = Returned (JArr old) →
  readJson d LOGINS_FILE = Returned logins →
  ∃ stored,
    assign_prop (if truthy body then body else JObj []) "timestamp" (JStr iso) = Returned stored
    ∧ download (saveResponse d body iso).2
      = Sent 200 (JObj [("responses", JArr ((as_written <$> old) ++ [as_written stored]));
                        ("logins", logins)]).
Proof.
  intros Hresp Hlogins.
  destruct (saveResponse_appends d body iso old Hresp) as (stored & Hstored & Hsave).
  exists stored. split; [done|]. rewrite Hsave. simpl. unfold download.
  rewrite readJson_writeJson. simpl.
  by rewrite readJson_writeJson_other, Hlogins, fmap_app.
Qed.

(** X6: [ensureDataFiles] can be run again without effect, and after it
    the three files exist. *)
Theorem ensureDataFiles_idempotent d :
  ensureDataFiles (ensureDataFiles d) = ensureDataFiles d
  ∧ ∀ f, is_Some (ensureDataFiles d !! f).
Proof.
  split.
  - apply map_eq. intros f. rewrite !ensureDataFiles_lookup. simpl. done.
  - intros f. rewrite ensureDataFiles_lookup. by eexists.
Qed.

(** X7: when the responses file is missing or is not JSON, a survey
    response is answered with the internal error and the file is left as it
    is (it is not reset to an empty array), and so is the download. *)
Theorem unreadable_responses_are_left_alone d body iso :
  readJson d RESP_FILE = Thrown →
  saveResponse d body iso = (fail_with 500 "Error interno", d)
  ∧ download d = fail_with 500 "Error interno"
  ∧ kind_of (saveResponse d body iso).1 = Some InternalError.
Proof.
  intros Hread.
  assert (saveResponse d body iso = (fail_with 500 "Error interno", d)) as Hsave.
  { destruct (saveResponse_effect d body iso) as [H|(old & stored & Hold & _)]; [done|].
    congruence. }
  rewrite Hsave. split; [done|]. split; [|done].
  unfold download. by rewrite Hread.
Qed.

(** *** The page's own copy *)

(** X8: the record [recopilacionSaveLogin] keeps has the properties
    [username], [avatarUrl], [timestamp] and [note] and no other, whatever
    properties the object it is given has; a truthy [timestamp] of that object
    is kept, the clock is read only without one.  The record goes last in the
    logins item, and the responses item is not touched. *)
Theorem recopilacionSaveLogin_record st loginObj iso st' :
  recopilacionSaveLogin st loginObj iso = Returned st' →
  ∃ old safe,
    readArray st STORAGE_KEY_LOGINS = JArr old
    ∧ readArray st' STORAGE_KEY_LOGINS = JArr ((as_written <$> old) ++ [JObj safe])
    ∧ keys safe = ["username"; "avatarUrl"; "timestamp"; "note"]
    ∧ lookup_prop "password" safe = None
    ∧ lookup_prop "timestamp" safe
      = Some (as_written (or_else (get_prop loginObj "timestamp") (JStr iso)))
    ∧ st' !! STORAGE_KEY_RESPONSES = st !! STORAGE_KEY_RESPONSES.
Proof.
  unfold recopilacionSaveLogin. intros Hsave.
  destruct (readArray st STORAGE_KEY_LOGINS) as [| | | |old|] eqn:Hold;
    try (destruct loginObj; discriminate Hsave).
  eexists old, _.
  assert (st' = writeArray st STORAGE_KEY_LOGINS
                  (JArr (old ++ [JObj [("username", or_else (get_prop loginObj "username") (JStr "demo_user"));
                                       ("avatarUrl", or_else (get_prop loginObj "avatarUrl") (JStr ""));
                                       ("timestamp", or_else (get_prop loginObj "timestamp") (JStr iso));
                                       ("note", JStr "Demo only -  passwords collected")]]))) as ->.
  { destruct loginObj; simpl in Hsave; by simplify_eq. }
  split; [done|]. unfold readArray, writeArray. rewrite lookup_insert_eq.
  split; [simpl; by rewrite fmap_app|]. split; [done|]. split; [done|]. split; [done|].
  by rewrite lookup_insert_ne.
Qed.

(** X9: after [recopilacionSaveResponse], [recopilacionGetAll] returns the
    responses that were read followed by the new one, as [JSON.stringify]
    wrote them, and the logins as before.  The responses read are the empty
    array when the item is missing, empty or not JSON: such an item is
    replaced. *)
Theorem recopilacionSaveResponse_then_GetAll st responseObj old :
  readArray st STORAGE_KEY_RESPONSES = JArr old →
  ∃ st',
    recopilacionSaveResponse st responseObj = Returned st'
    ∧ recopilacionGetAll st'
      = JObj [("responses", JArr ((as_written <$> old) ++ [as_written responseObj]));
              ("logins", readArray st STORAGE_KEY_LOGINS)]
    ∧ (st !! STORAGE_KEY_RESPONSES = None ∨ st !! STORAGE_KEY_RESPONSES = Some Blank
       ∨ st !! STORAGE_KEY_RESPONSES = Some Garbled → old = []).
Proof.
  intros Hold. eexists. unfold recopilacionSaveResponse. rewrite Hold. simpl.
  split; [done|]. split.
  - unfold recopilacionGetAll, readArray, writeArray.
    rewrite lookup_insert_eq, lookup_insert_ne by done. simpl. by rewrite fmap_app.
  - unfold readArray in Hold. intros [H|[H|H]]; rewrite H in Hold; by injection Hold.
Qed.

(** X10: after [recopilacionClear], [recopilacionGetAll] returns two empty
    arrays, whatever the items held. *)
Theorem recopilacionClear_then_GetAll st :
  recopilacionGetAll (recopilacionClear st)
  = JObj [("responses", JArr []); ("logins", JArr [])].
Proof.
  unfold recopilacionGetAll, recopilacionClear, readArray.
  rewrite lookup_delete_ne by done. by rewrite !lookup_delete_eq.
Qed.

(** ** The logins log and the avatar proxy *)

Section Converting.

Context (number_to_string : float → string).

Local Abbreviation text_of := (text_of number_to_string).
Local Abbreviation saveLogin := (saveLogin number_to_string).
Local Abbreviation avatar := (avatar number_to_string).

Lemma text_of_string s : text_of (Some (JStr s)) = Returned s.
Proof.
  unfold text_of. simpl. case_bool_decide as Hs; simpl; [by subst | done].
Qed.

(** A login record is appended whenever the name converts to a string
    and the logins file holds an array, and nothing is written otherwise. *)
Lemma saveLogin_effect d body iso :
  saveLogin d body iso = (fail_with 500 "Error interno", d)
  ∨ ∃ old username,
      readJson d LOGINS_FILE = Returned (JArr old)
      ∧ text_of (get_prop (if truthy body then body else JObj []) "username")
        = Returned username
      ∧ saveLogin d body iso
        = (replied_ok,
           writeJson d LOGINS_FILE
             (JArr (old ++ [JObj [("username", JStr (trim username));
                                  ("avatarUrl",
                                   or_else (get_prop (if truthy body then body else JObj [])
                                              "avatarUrl") (JStr ""));
                                  ("timestamp", JStr iso)]]))).
Proof.
  unfold saveLogin. simpl.
  destruct (text_of _) as [username|]; simpl; [|by left].
  destruct (readJson d LOGINS_FILE) as [arr|] eqn:Hread; simpl; [|by left].
  destruct arr as [| | | |old|]; simpl; try by left.
  right. by exists old, username.
Qed.


Lemma saveLogin_disk d body iso :
  (saveLogin d body iso).2 = d
  ∨ ∃ arr, (saveLogin d body iso).2 = writeJson d LOGINS_FILE arr.
Proof.
  destruct (saveLogin_effect d body iso) as [->|(old & username & _ & _ & ->)].
  - by left.
  - right. by eexists.
Qed.


(** X3: when the lookup answers with a truthy [Id] and the thumbnail
    service answers with an image URL, the reply carries that URL, and two
    calls were made, the second for the id the first returned. *)
Theorem avatar_resolves param ud id uid j image rest :
  trim param ≠ "" →
  get_prop ud "Id" = Some id →
  truthy id = true →
  to_String number_to_string id = Returned uid →
  image_of j = Some image →
  truthy image = true →
  run (avatar param) (Response true (Some ud) :: Response true (Some j) :: rest)
  = Some (Sent 200 (JObj [("imageUrl", image)]),
          ["https://api.roblox.com/users/get-by-username?username="
           +:+ encodeURIComponent (trim param);
           "https://thumbnails.roblox.com/v1/users/avatar-headshot?userIds="
           +:+ uid +:+ "&size=150x150&format=Png&isCircular=false"]).
Proof.
  intros Hname Hid Htruthy Huid Himage Himg.
  unfold avatar. rewrite bool_decide_eq_false_2 by done. simpl.
  rewrite (get_prop_truthy _ _ _ Hid), Hid. simpl. rewrite Htruthy. simpl.
  rewrite Huid. simpl. rewrite Himage. simpl. rewrite Himg. simpl. by rewrite Himg.
Qed.

(** X11: whatever the upstream service answers, the avatar proxy ends
    with a reply after two calls at most, and what would be answered to a
    third call has no part in it; with a blank user name it makes no call. *)
Theorem avatar_calls_at_most_twice param answers :
  (2 ≤ length answers)%nat →
  ∃ status payload urls,
    run (avatar param) answers = Some (Sent status payload, urls)
    ∧ (length urls ≤ 2)%nat
    ∧ run (avatar param) (take 2 answers) = run (avatar param) answers
    ∧ (trim param = "" →
       ∀ others, run (avatar param) others = Some (fail_with 400 "Falta username", [])).
Proof.
  intros Hlen. destruct answers as [|first [|second rest]]; simpl in Hlen; try lia.
  assert (trim param = "" →
          ∀ others, run (avatar param) others = Some (fail_with 400 "Falta username", []))
    as Hblank.
  { intros Hname others. unfold avatar. by rewrite bool_decide_eq_true_2. }
  enough (∃ status payload urls,
            run (avatar param) (first :: second :: rest) = Some (Sent status payload, urls)
            ∧ (length urls ≤ 2)%nat
            ∧ run (avatar param) [first; second] = run (avatar param) (first :: second :: rest))
    as (status & payload & urls & Hrun & Hurls & Htwo).
  { exists status, payload, urls. by rewrite Hrun in *. }
  unfold avatar. case_bool_decide as Hname; simpl.
  { eexists _, _, _. split; [reflexivity|]. split; [simpl; lia | done]. }
  destruct first as [|[] [ud|]]; simpl;
    try (eexists _, _, _; split; [reflexivity|]; split; [simpl; lia | done]).
  destruct (negb (truthy ud) || falsy (get_prop ud "Id")); simpl;
    try (eexists _, _, _; split; [reflexivity|]; split; [simpl; lia | done]).
  destruct (to_String number_to_string _) as [uid|]; simpl;
    try (eexists _, _, _; split; [reflexivity|]; split; [simpl; lia | done]).
  destruct second as [|[] [j|]]; simpl;
    try (eexists _, _, _; split; [reflexivity|]; split; [simpl; lia | done]).
  destruct (negb (truthy (or_else (image_of j) (JStr "")))); simpl;
    eexists _, _, _; (split; [reflexivity|]); split; simpl; (lia || done).
Qed.

End Converting.

(** ** Registration *)

Section Registering.

Context (number_to_string : float → string) (bcrypt_hash : string → string → string).

Local Abbreviation text_of := (text_of number_to_string).
Local Abbreviation register := (register number_to_string bcrypt_hash).


(** A registration is refused and writes nothing, or it appends the
    record of the new user. *)
Lemma register_effect d s body salt now iso :
  (∃ code message, code ≠ 200%nat
     ∧ register d s body salt now iso = (fail_with code message, (d, s)))
  ∨ ∃ raw password users,
      text_of (get_prop body "username") = Returned raw
      ∧ text_of (get_prop body "password") = Returned password
      ∧ name_pattern (trim raw) = true
      ∧ (6 ≤ String.length password)%nat
      ∧ readJson d USERS_FILE = Returned (JArr users)
      ∧ Forall (λ r, is_Some (name_of r) ∧ carries (trim raw) r = false) users
      ∧ register d s body salt now iso
        = (Sent 200 (JObj [("ok", JBool true); ("username", JStr (trim raw)); ("id", JNum now)]),
           (writeJson d USERS_FILE
              (JArr (users ++ [newUser now (trim raw) (bcrypt_hash password salt) iso])),
            Some (JNum now))).
Proof.
  unfold register.
  destruct (null_or_not body) as [->|Hbody]; [left; by eexists 500%nat, _|].
  rewrite !destructure_not_null by done. simpl.
  destruct (text_of (get_prop body "username")) as [raw|]; simpl;
    [|left; by eexists 500%nat, _].
  destruct (text_of (get_prop body "password")) as [password|]; simpl;
    [|left; by eexists 500%nat, _].
  destruct (bool_decide (trim raw = "") || (String.length (trim raw) <? 2)%nat);
    simpl; [left; by eexists 400%nat, _|].
  destruct (bool_decide (password = "")); simpl; [left; by eexists 400%nat, _|].
  destruct (String.length password <? 6)%nat eqn:Hlen; simpl; [left; by eexists 400%nat, _|].
  destruct (name_pattern (trim raw)) eqn:Hpat; simpl; [|left; by eexists 400%nat, _].
  destruct (readJson d USERS_FILE) as [arr|] eqn:Hread; simpl; [|left; by eexists 500%nat, _].
  destruct arr as [| | | |users|]; simpl; try (left; by eexists 500%nat, _).
  destruct (findIndex (same_name (trim raw)) users) as [[i|]|] eqn:Hfind;
    simpl; [| |left; by eexists 500%nat, _].
  - destruct (findIndex_Some _ _ _ Hfind) as (found & Hfound & Hhit & _).
    rewrite Hfound. simpl.
    rewrite same_name_name_of in Hhit. destruct (name_of found) eqn:Hname; [|done].
    rewrite (name_of_truthy _ _ Hname). simpl. left. by eexists 409%nat, _.
  - right. exists raw, password, users. repeat split; try done.
    + by apply Nat.ltb_ge.
    + apply findIndex_None in Hfind. eapply Forall_impl; [exact Hfind|].
      intros x Hx. by apply same_name_false.
Qed.

(** What a successful registration did. *)
Lemma register_succeeded d s body salt now iso out d' s' :
  register d s body salt now iso = (out, (d', s')) → succeeded out = true →
  ∃ raw password users,
    text_of (get_prop body "username") = Returned raw
    ∧ text_of (get_prop body "password") = Returned password
    ∧ name_pattern (trim raw) = true
    ∧ (6 ≤ String.length password)%nat
    ∧ readJson d USERS_FILE = Returned (JArr users)
    ∧ Forall (λ r, is_Some (name_of r) ∧ carries (trim raw) r = false) users
    ∧ out = Sent 200 (JObj [("ok", JBool true); ("username", JStr (trim raw)); ("id", JNum now)])
    ∧ d' = writeJson d USERS_FILE
             (JArr (users ++ [newUser now (trim raw) (bcrypt_hash password salt) iso]))
    ∧ s' = Some (JNum now).
Proof.
  intros Hreg Hok.
  destruct (register_effect d s body salt now iso)
    as [(code & message & Hcode & Hfail)|(raw & password & users & H)].
  - rewrite Hfail in Hreg. simplify_eq. simpl in Hok.
    by apply bool_decide_eq_true_1 in Hok.
  - destruct H as (Hraw & Hpassword & Hpat & Hlen & Hread & Hfree & Hdone).
    rewrite Hdone in Hreg. simplify_eq. by exists raw, password, users.
Qed.

(** Registering a well-formed name that no record carries succeeds. *)
Lemma register_new d s body salt now iso users name password :
  readJson d USERS_FILE = Returned (JArr users) →
  Forall (λ r, is_Some (name_of r)) users →
  Forall (λ r, carries name r = false) users →
  name_pattern name = true →
  (6 ≤ String.length password)%nat →
  get_prop body "username" = Some (JStr name) →
  get_prop body "password" = Some (JStr password) →
  register d s body salt now iso
  = (Sent 200 (JObj [("ok", JBool true); ("username", JStr name); ("id", JNum now)]),
     (writeJson d USERS_FILE (JArr (users ++ [newUser now name (bcrypt_hash password salt) iso])),
      Some (JNum now))).
Proof.
  intros Hread Hnamed Hfree Hpat Hlen Hname Hpassword.
  pose proof (name_pattern_length name Hpat) as Hnlen.
  unfold register. rewrite (destructure_prop _ _ _ Hname), (destructure_prop _ _ _ Hpassword).
  simpl. rewrite !text_of_string. simpl. rewrite (trim_name name Hpat).
  rewrite bool_decide_eq_false_2 by (intros ->; simpl in Hnlen; lia).
  rewrite (proj2 (Nat.ltb_ge _ _) Hnlen). simpl.
  rewrite bool_decide_eq_false_2 by (intros ->; simpl in Hlen; lia).
  rewrite (proj2 (Nat.ltb_ge _ _) Hlen). simpl.
  rewrite Hpat. simpl. rewrite Hread. simpl.
  pose proof (find_same_name_miss name users Hnamed Hfree) as Hfind. simpl in Hfind.
  destruct (findIndex (same_name name) users) as [[i|]|]; simpl in Hfind; [|done|done].
  injection Hfind as Hfind. simpl. by rewrite Hfind.
Qed.

(** C5, as the code has it: [readJson] throws on a missing file and
    creates nothing; it is [ensureDataFiles], when the server starts, that
    creates each missing file holding the empty array and leaves the others
    alone.  After it a file that was missing reads as the empty sequence,
    and with no users file at the start a registration with a well-formed
    name and a password of six characters or more succeeds. *)
Theorem missing_files_are_created_at_start d s body salt now iso name password :
  d !! USERS_FILE = None →
  name_pattern name = true →
  (6 ≤ String.length password)%nat →
  get_prop body "username" = Some (JStr name) →
  get_prop body "password" = Some (JStr password) →
  readJson d USERS_FILE = Thrown
  ∧ (∀ f, d !! f = None → readJson d f = Thrown
                          ∧ ensureDataFiles d !! f = Some (Denotes (JArr []))
                          ∧ readJson (ensureDataFiles d) f = Returned (JArr []))
  ∧ (∀ f t, d !! f = Some t → ensureDataFiles d !! f = Some t)
  ∧ register (ensureDataFiles d) s body salt now iso
    = (Sent 200 (JObj [("ok", JBool true); ("username", JStr name); ("id", JNum now)]),
       (writeJson (ensureDataFiles d) USERS_FILE
          (JArr [newUser now name (bcrypt_hash password salt) iso]),
        Some (JNum now))).
Proof.
  intros Hmissing Hpat Hlen Hname Hpassword.
  assert (∀ f, d !! f = None → readJson (ensureDataFiles d) f = Returned (JArr [])) as Hafter.
  { intros f Hf. unfold readJson. by rewrite ensureDataFiles_lookup, Hf. }
  split; [by apply readJson_missing|]. split; [|split].
  - intros f Hf. split; [by apply readJson_missing|]. split; [|by apply Hafter].
    by rewrite ensureDataFiles_lookup, Hf.
  - intros f t Hf. by rewrite ensureDataFiles_lookup, Hf.
  - by apply (register_new _ _ _ _ _ _ [] name password); [apply Hafter|..].
Qed.

(** C6, as the code has it: the id of a new user is what [Date.now()]
    returned, and no id is compared with it.  Where the id of every user
    already in the file is a number below that clock reading, the id the
    new record has in the file differs from each of them. *)
Theorem register_id_is_the_clock d s body salt now iso out d' s' users :
  register d s body salt now iso = (out, (d', s')) →
  succeeded out = true →
  readJson d USERS_FILE = Returned (JArr users) →
  Forall (λ r, ∃ x, get_prop r "id" = Some (JNum x) ∧ (x <? now)%float = true) users →
  ∃ record,
    readJson d' USERS_FILE = Returned (JArr ((as_written <$> users) ++ [record]))
    ∧ get_prop record "id" = Some (as_written (JNum now))
    ∧ s' = Some (JNum now)
    ∧ Forall (λ r, strict_eq_opt (get_prop r "id") (get_prop record "id") = false) users.
Proof.
  intros Hreg Hok Hread Hbelow.
  destruct (register_succeeded _ _ _ _ _ _ _ _ _ Hreg Hok)
    as (raw & password & users0 & _ & _ & _ & _ & Hread0 & _ & _ & -> & ->).
  rewrite Hread in Hread0. injection Hread0 as <-.
  exists (as_written (newUser now (trim raw) (bcrypt_hash password salt) iso)).
  split; [rewrite readJson_writeJson; simpl; by rewrite fmap_app|].
  split; [done|]. split; [done|].
  eapply Forall_impl; [exact Hbelow|]. intros r (x & -> & Hx).
  by apply below_not_written.
Qed.

(** X12: a user name that is not well formed, or a password of fewer than
    six characters, is refused with 400 before any file is read: the reply
    is the same whatever the data directory holds, and nothing is written. *)
Theorem register_refuses_invalid_input d s body salt now iso v p :
  get_prop body "username" = Some (JStr v) →
  get_prop body "password" = Some (JStr p) →
  name_pattern (trim v) = false ∨ (String.length p < 6)%nat →
  ∃ message,
    register d s body salt now iso = (fail_with 400 message, (d, s))
    ∧ register ∅ s body salt now iso = (fail_with 400 message, (∅, s))
    ∧ kind_of (fail_with 400 message) = Some ValidationError.
Proof.
  intros Hv Hp Hbad.
  assert (∀ d', ∃ message,
            register d' s body salt now iso = (fail_with 400 message, (d', s))
            ∧ ∀ d'', register d'' s body salt now iso = (fail_with 400 message, (d'', s)))
    as Hall.
  { intros d'. unfold register.
    rewrite (destructure_prop _ _ _ Hv), (destructure_prop _ _ _ Hp).
    simpl. rewrite !text_of_string. simpl.
    destruct (bool_decide (trim v = "") || (String.length (trim v) <? 2)%nat);
      simpl; [by eexists|].
    destruct (bool_decide (p = "") || (String.length p <? 6)%nat) eqn:Hshort;
      simpl; [by eexists|].
    destruct (name_pattern (trim v)) eqn:Hpat; simpl; [|by eexists].
    destruct Hbad as [Hbad|Hbad]; [done|].
    apply orb_false_iff in Hshort as [_ Hshort]. apply Nat.ltb_ge in Hshort. lia. }
  destruct (Hall d) as (message & Hd & Hany).
  exists message. split; [done|]. split; [apply Hany | done].
Qed.

(** X13: a successful registration keeps the password as the hash bcrypt
    made of it and in no other form: the record has the properties [id],
    [username], [passwordHash], [avatarUrl] and [createdAt], its
    [passwordHash] is that hash, and the reply carries [ok], [username] and
    [id] only. *)
Theorem register_stores_hash_only d s body salt now iso out d' s' :
  register d s body salt now iso = (out, (d', s')) →
  succeeded out = true →
  ∃ users password record reply,
    text_of (get_prop body "password") = Returned password
    ∧ readJson d USERS_FILE = Returned (JArr users)
    ∧ readJson d' USERS_FILE = Returned (JArr ((as_written <$> users) ++ [JObj record]))
    ∧ keys record = ["id"; "username"; "passwordHash"; "avatarUrl"; "createdAt"]
    ∧ lookup_prop "passwordHash" record = Some (JStr (bcrypt_hash password salt))
    ∧ lookup_prop "avatarUrl" record = Some (JStr "")
    ∧ lookup_prop "createdAt" record = Some (JStr iso)
    ∧ out = Sent 200 (JObj reply)
    ∧ keys reply = ["ok"; "username"; "id"]
    ∧ lookup_prop "username" reply = lookup_prop "username" record.
Proof.
  intros Hreg Hok.
  destruct (register_succeeded _ _ _ _ _ _ _ _ _ Hreg Hok)
    as (raw & password & users & _ & Hpassword & _ & _ & Hread & _ & -> & -> & _).
  eexists users, password, _, _. split; [done|]. split; [done|].
  split; [rewrite readJson_writeJson; simpl; by rewrite fmap_app|]. by repeat split.
Qed.

(** X14: registering logs the new user in.  Where the clock reading is a
    number that JSON holds, and no record, as the users file holds it after
    the registration, has that number as its id, [GET /api/me] with the
    session the registration set answers with the name as stored and an
    empty avatar. *)
Theorem register_then_me d s body salt now iso out d' s' users :
  register d s body salt now iso = (out, (d', s')) →
  succeeded out = true →
  readJson d USERS_FILE = Returned (JArr users) →
  Forall (λ r, r ≠ JNull) (as_written <$> users) →
  Forall (λ r, strict_eq_opt (get_prop r "id") (Some (JNum now)) = false)
         (as_written <$> users) →
  truthy (JNum now) = true →
  as_written (JNum now) = JNum now →
  ∃ name,
    out = Sent 200 (JObj [("ok", JBool true); ("username", JStr name); ("id", JNum now)])
    ∧ me d' s'
      = Sent 200 (JObj [("logged", JBool true); ("username", JStr name);
                        ("avatarUrl", JStr "")]).
Proof.
  intros Hreg Hok Hread Hnonnull Hfresh Hnow Hclock.
  destruct (register_succeeded _ _ _ _ _ _ _ _ _ Hreg Hok)
    as (raw & password & users0 & _ & _ & _ & _ & Hread0 & _ & -> & -> & ->).
  rewrite Hread in Hread0. injection Hread0 as <-.
  exists (trim raw). split; [done|].
  set (hash := bcrypt_hash password salt).
  assert (as_written (newUser now (trim raw) hash iso) = newUser now (trim raw) hash iso)
    as Hrecord.
  { unfold newUser. simpl. simpl in Hclock. by rewrite Hclock. }
  unfold me, falsy. rewrite Hnow. simpl negb. cbv iota.
  rewrite readJson_writeJson. cbn [as_written]. rewrite fmap_app. cbn [fmap list_fmap].
  rewrite Hrecord. cbn [mbind exc_bind array_find].
  assert (findIndex (same_id (Some (JNum now)))
            ((as_written <$> users) ++ [newUser now (trim raw) hash iso])
          = Returned (Some (length (as_written <$> users)))) as ->.
  { apply findIndex_at with (newUser now (trim raw) hash iso).
    - by rewrite list_lookup_middle.
    - simpl. f_equal. simpl in Hnow. unfold PrimFloat.is_nan in Hnow.
      destruct (now =? now)%float; [done|]. by rewrite orb_true_r in Hnow.
    - intros j y Hj Hy. rewrite lookup_app_l in Hy by done.
      pose proof (proj1 (Forall_forall _ _) Hnonnull y (list_elem_of_lookup_2 _ _ _ Hy)) as Hnull.
      pose proof (proj1 (Forall_forall _ _) Hfresh y (list_elem_of_lookup_2 _ _ _ Hy)) as Hid.
      destruct y; simpl in *; by rewrite ?Hid. }
  simpl. by rewrite list_lookup_middle.
Qed.

End Registering.

(** ** Logging in *)

Section LoggingIn.

Context (number_to_string : float → string) (bcrypt_compare : string → string → bool).

Local Abbreviation text_of := (text_of number_to_string).
Local Abbreviation verify := (verify bcrypt_compare).
Local Abbreviation login := (login number_to_string bcrypt_compare).

Lemma verify_hash_of password user :
  verify password user
  = match hash_of user with
    | Some hash => Returned (bcrypt_compare password hash)
    | None => Thrown
    end.
Proof. unfold verify, hash_of. by destruct (get_prop user "passwordHash") as [[]|]. Qed.

(** A login with a user name and a password that are strings: it is
    refused at once when one is empty, and otherwise decided by the record
    [find] returns. *)
Lemma login_credentials d s body v p :
  get_prop body "username" = Some (JStr v) →
  get_prop body "password" = Some (JStr p) →
  login d s body
  = if bool_decide (trim v = "") || bool_decide (p = "") then (refusal v p, (d, s))
    else
      match users ← readJson d USERS_FILE; array_find (same_name (trim v)) users with
      | Returned (Some user) =>
          if negb (truthy user) then (refusal v p, (d, s))
          else
            match hash_of user with
            | Some hash =>
                if bcrypt_compare p hash then
                  (Sent 200 (object_opt
                     [("ok", Some (JBool true));
                      ("username", get_prop user "username");
                      ("id", get_prop user "id");
                      ("avatarUrl", Some (or_else (get_prop user "avatarUrl") (JStr "")))]),
                   (d, get_prop user "id"))
                else (refusal v p, (d, s))
            | None => (fail_with 500 "Error interno", (d, s))
            end
      | Returned None => (refusal v p, (d, s))
      | Thrown => (fail_with 500 "Error interno", (d, s))
      end.
Proof.
  intros Hv Hp. unfold login, refusal.
  rewrite (destructure_prop _ _ _ Hv), (destructure_prop _ _ _ Hp).
  simpl. rewrite !text_of_string. simpl.
  destruct (bool_decide (trim v = "") || bool_decide (p = "")); simpl; [done|].
  destruct (readJson d USERS_FILE) as [users|]; simpl; [|done].
  destruct (array_find (same_name (trim v)) users) as [[user|]|]; simpl; try done.
  destruct (truthy user); simpl; [|done].
  rewrite verify_hash_of. destruct (hash_of user) as [hash|]; simpl; [|done].
  by destruct (bcrypt_compare p hash).
Qed.

(** C3, with the check for empty credentials taken into account: where
    every record of the users file has a name, a login with the name of an
    existing user and a password that does not verify against the hash that
    each record carrying the name has, and a login with a name that no
    record carries, are both answered by the refusal their own credentials
    determine, and nothing is written.  When neither request has a blank
    name or an empty password the two replies are the same: 401 with the one
    message. *)
Theorem login_refusals_alike d s users body1 v1 p1 body2 v2 p2 :
  readJson d USERS_FILE = Returned (JArr users) →
  Forall (λ r, is_Some (name_of r)) users →
  get_prop body1 "username" = Some (JStr v1) →
  get_prop body1 "password" = Some (JStr p1) →
  get_prop body2 "username" = Some (JStr v2) →
  get_prop body2 "password" = Some (JStr p2) →
  Exists (λ r, carries (trim v1) r = true) users →
  Forall (λ r, carries (trim v1) r = true →
               ∃ hash, hash_of r = Some hash ∧ bcrypt_compare p1 hash = false) users →
  Forall (λ r, carries (trim v2) r = false) users →
  login d s body1 = (refusal v1 p1, (d, s))
  ∧ login d s body2 = (refusal v2 p2, (d, s))
  ∧ (trim v1 ≠ "" → p1 ≠ "" → trim v2 ≠ "" → p2 ≠ "" →
     login d s body1 = (fail_with 401 "Usuario/contraseña inválidos", (d, s))
     ∧ login d s body2 = login d s body1
     ∧ kind_of (login d s body1).1 = Some AuthError
     ∧ kind_of (login d s body2).1 = Some AuthError).
Proof.
  intros Hread Hnamed Hv1 Hp1 Hv2 Hp2 Hexists Hwrong Hnone.
  assert (login d s body1 = (refusal v1 p1, (d, s))) as H1.
  { rewrite (login_credentials _ _ _ _ _ Hv1 Hp1).
    destruct (bool_decide (trim v1 = "") || bool_decide (p1 = "")); [done|].
    apply Exists_exists in Hexists as (r & Hin & Hr).
    destruct (find_same_name_hit _ _ _ Hnamed Hin Hr) as (found & Hfind & Hfin & Hfound).
    rewrite Hread. simpl. simpl in Hfind. rewrite Hfind.
    rewrite (carries_truthy _ _ Hfound). simpl.
    destruct (proj1 (Forall_forall _ _) Hwrong found Hfin Hfound) as (hash & -> & ->).
    done. }
  assert (login d s body2 = (refusal v2 p2, (d, s))) as H2.
  { rewrite (login_credentials _ _ _ _ _ Hv2 Hp2).
    destruct (bool_decide (trim v2 = "") || bool_decide (p2 = "")); [done|].
    rewrite Hread. simpl.
    pose proof (find_same_name_miss _ _ Hnamed Hnone) as Hfind. simpl in Hfind.
    by rewrite Hfind. }
  split; [done|]. split; [done|].
  intros Hn1 Hq1 Hn2 Hq2. rewrite H1, H2. unfold refusal.
  by rewrite !bool_decide_eq_false_2 by done.
Qed.

Lemma login_disk d s body : (login d s body).2.1 = d.
Proof.
  unfold login.
  destruct (null_or_not body) as [->|Hbody]; [done|].
  rewrite !destructure_not_null by done. simpl.
  destruct (text_of (get_prop body "username")) as [raw|]; simpl; [|done].
  destruct (text_of (get_prop body "password")) as [password|]; simpl; [|done].
  destruct (bool_decide (trim raw = "") || bool_decide (password = "")); simpl; [done|].
  destruct (readJson d USERS_FILE) as [users|]; simpl; [|done].
  destruct (array_find (same_name (trim raw)) users) as [[user|]|]; simpl; try done.
  destruct (truthy user); simpl; [|done].
  destruct (verify password user) as [[]|]; by simpl.
Qed.

(** A login is refused and changes nothing, or it found a record that
    carries the name and whose hash verifies the password. *)
Lemma login_effect d s body :
  (∃ code message, code ≠ 200%nat ∧ login d s body = (fail_with code message, (d, s)))
  ∨ ∃ raw password users user hash,
      text_of (get_prop body "username") = Returned raw
      ∧ text_of (get_prop body "password") = Returned password
      ∧ trim raw ≠ "" ∧ password ≠ ""
      ∧ readJson d USERS_FILE = Returned (JArr users)
      ∧ user ∈ users
      ∧ carries (trim raw) user = true
      ∧ hash_of user = Some hash
      ∧ bcrypt_compare password hash = true
      ∧ login d s body
        = (Sent 200 (object_opt
                       [("ok", Some (JBool true));
                        ("username", get_prop user "username");
                        ("id", get_prop user "id");
                        ("avatarUrl", Some (or_else (get_prop user "avatarUrl") (JStr "")))]),
           (d, get_prop user "id")).
Proof.
  unfold login.
  destruct (null_or_not body) as [->|Hbody]; [left; by eexists 500%nat, _|].
  rewrite !destructure_not_null by done. simpl.
  destruct (text_of (get_prop body "username")) as [raw|]; simpl;
    [|left; by eexists 500%nat, _].
  destruct (text_of (get_prop body "password")) as [password|]; simpl;
    [|left; by eexists 500%nat, _].
  destruct (bool_decide (trim raw = "")) eqn:Hraw; simpl; [left; by eexists 400%nat, _|].
  destruct (bool_decide (password = "")) eqn:Hpw; simpl; [left; by eexists 400%nat, _|].
  destruct (readJson d USERS_FILE) as [arr|] eqn:Hread; simpl; [|left; by eexists 500%nat, _].
  destruct arr as [| | | |users|]; simpl; try (left; by eexists 500%nat, _).
  destruct (findIndex (same_name (trim raw)) users) as [[i|]|] eqn:Hfind; simpl;
    [|left; by eexists 401%nat, _|left; by eexists 500%nat, _].
  destruct (findIndex_Some _ _ _ Hfind) as (user & Huser & Hhit & _).
  rewrite Huser. simpl.
  rewrite same_name_name_of in Hhit. destruct (name_of user) as [name|] eqn:Hname; [|done].
  rewrite (name_of_truthy _ _ Hname). simpl.
  rewrite verify_hash_of. destruct (hash_of user) as [hash|] eqn:Hhash; simpl;
    [|left; by eexists 500%nat, _].
  destruct (bcrypt_compare password hash) eqn:Hcompare; simpl; [|left; by eexists 401%nat, _].
  right. exists raw, password, users, user, hash.
  apply bool_decide_eq_false in Hraw. apply bool_decide_eq_false in Hpw.
  repeat split; try done.
  - by eapply list_elem_of_lookup_2.
  - unfold carries. rewrite Hname. by injection Hhit.
Qed.

(** X15: nobody is logged in without a password that verifies.  A login
    that succeeds found, in the users file, a record that carries the name
    sent (trimmed, but for case) and whose hash [bcrypt.compare] accepts for
    the password sent; the session gets the id of that record and no file is
    written. *)
Theorem login_success_means_verified d s body out d' s' :
  login d s body = (out, (d', s')) →
  succeeded out = true →
  ∃ raw password users user hash,
    text_of (get_prop body "username") = Returned raw
    ∧ text_of (get_prop body "password") = Returned password
    ∧ readJson d USERS_FILE = Returned (JArr users)
    ∧ user ∈ users
    ∧ carries (trim raw) user = true
    ∧ hash_of user = Some hash
    ∧ bcrypt_compare password hash = true
    ∧ d' = d
    ∧ s' = get_prop user "id".
Proof.
  intros Hlogin Hok.
  destruct (login_effect d s body)
    as [(code & message & Hcode & Hfail)|(raw & password & users & user & hash & H)].
  - rewrite Hfail in Hlogin. simplify_eq. simpl in Hok.
    by apply bool_decide_eq_true_1 in Hok.
  - destruct H as (Hraw & Hpassword & _ & _ & Hread & Hin & Hcarries & Hhash & Hcompare & Hdone).
    rewrite Hdone in Hlogin. simplify_eq.
    by exists raw, password, users, user, hash.
Qed.

(** X16: no reply of [POST /api/login] carries a password or a password
    hash: a reply that is an object has no property [password] and no
    property [passwordHash]. *)
Theorem login_reply_hides_hash d s body status reply :
  (login d s body).1 = Sent status (JObj reply) →
  lookup_prop "passwordHash" reply = None ∧ lookup_prop "password" reply = None.
Proof.
  intros Hreply.
  destruct (login_effect d s body)
    as [(code & message & _ & Hfail)|(raw & password & users & user & hash & H)].
  - rewrite Hfail in Hreply. unfold fail_with in Hreply. simpl in Hreply.
    injection Hreply as _ <-. split; reflexivity.
  - destruct H as (_ & _ & _ & _ & _ & _ & _ & _ & _ & Hdone).
    rewrite Hdone in Hreply. simpl in Hreply. unfold object_opt in Hreply.
    destruct (get_prop user "username"), (get_prop user "id");
      simpl in Hreply; simplify_eq; split; reflexivity.
Qed.

End LoggingIn.

(** ** Accounts over time *)

Section Serving.

Context (number_to_string : float → string).
Context (bcrypt_hash : string → string → string) (bcrypt_compare : string → string → bool).

Local Abbreviation register := (register number_to_string bcrypt_hash).
Local Abbreviation login := (login number_to_string bcrypt_compare).
Local Abbreviation saveLogin := (saveLogin number_to_string).
Local Abbreviation serve := (serve number_to_string bcrypt_hash bcrypt_compare).
Local Abbreviation after := (after number_to_string bcrypt_hash bcrypt_compare).

(** What a request does to the users file: every record stays the same
    account, or that and one record is appended whose name none of the
    others carries. *)
Lemma serve_users d s r users :
  readJson d USERS_FILE = Returned (JArr users) →
  ∃ users', readJson (serve d s r).2.1 USERS_FILE = Returned (JArr users')
            ∧ (Forall2 same_account users users'
               ∨ ∃ kept record name, users' = kept ++ [record]
                                     ∧ Forall2 same_account users kept
                                     ∧ name_of record = Some name
                                     ∧ Forall (λ r, carries name r = false) users).
Proof.
  intros Hread.
  pose proof (kept_refl users) as Hsame.
  destruct r as [body salt now iso|body| |body|body iso|body iso]; simpl.
  - destruct (register_effect number_to_string bcrypt_hash d s body salt now iso)
      as [(code & message & _ & ->)|(raw & password & users0 & H)].
    + exists users. by split; [|left].
    + destruct H as (_ & _ & _ & _ & Hread0 & Hfree & ->). simpl.
      rewrite Hread in Hread0. injection Hread0 as <-.
      eexists. split; [rewrite readJson_writeJson; simpl; by rewrite fmap_app|]. right.
      eexists _, _, (trim raw). split; [done|]. split; [by apply kept_written|].
      split; [by rewrite name_of_written|].
      eapply Forall_impl; [exact Hfree|]. by intros x [_ Hx].
  - rewrite login_disk. exists users. by split; [|left].
  - exists users. by split; [|left].
  - destruct (me_avatar d s body) as [o d'] eqn:Hme. simpl.
    destruct (me_avatar_effect d s body) as [Hd|(users0 & idx & fields & H)].
    + rewrite Hme in Hd. simpl in Hd. subst d'. exists users. by split; [|left].
    + destruct H as (Hread0 & _ & Hidx & Heq). rewrite Hme in Heq. injection Heq as -> ->.
      rewrite Hread in Hread0. injection Hread0 as <-.
      eexists. split; [rewrite readJson_writeJson; reflexivity|]. left.
      apply kept_written. by apply kept_avatar.
  - destruct (saveResponse d body iso) as [o d'] eqn:Hsave. simpl.
    destruct (saveResponse_disk d body iso) as [Hd|[arr Hd]];
      rewrite Hsave in Hd; simpl in Hd; subst d';
      exists users; (split; [|by left]); [done|].
    by rewrite readJson_writeJson_other.
  - destruct (saveLogin d body iso) as [o d'] eqn:Hsave. simpl.
    destruct (saveLogin_disk number_to_string d body iso) as [Hd|[arr Hd]];
      rewrite Hsave in Hd; simpl in Hd; subst d';
      exists users; (split; [|by left]); [done|].
    by rewrite readJson_writeJson_other.
Qed.

(** Every request leaves each user of the users file in place, the same
    account as before. *)
Lemma serve_extends d s r users :
  readJson d USERS_FILE = Returned (JArr users) →
  ∃ users', readJson (serve d s r).2.1 USERS_FILE = Returned (JArr users')
            ∧ extends users users'.
Proof.
  intros Hread.
  destruct (serve_users d s r users Hread) as (users' & Hread' & [Hsame|Hnew]).
  - exists users'. split; [done|]. exists users', []. by rewrite app_nil_r.
  - destruct Hnew as (kept & record & name & -> & Hkept & _). eexists. split; [done|].
    by exists kept, [record].
Qed.

Lemma after_extends d requests users :
  readJson d USERS_FILE = Returned (JArr users) →
  ∃ users', readJson (after d requests) USERS_FILE = Returned (JArr users')
            ∧ extends users users'.
Proof.
  revert d users. induction requests as [|[s r] requests IH]; intros d users Hread.
  - exists users. split; [done | apply extends_refl].
  - destruct (serve_extends d s r users Hread) as (users1 & Hread1 & Hext1).
    destruct (IH _ _ Hread1) as (users2 & Hread2 & Hext2).
    exists users2. split; [done|]. by eapply extends_trans.
Qed.

(** C4: after a successful registration of the name [u] with the password
    [p], and whatever requests were served since, a login with a name [v]
    that is the registered name but for case, and with [p], succeeds; the
    identity it returns carries the name as it was stored at registration
    (the name sent, trimmed), not as it was typed at login, and the id as the
    file holds it.  That the password verifies against the hash made from it
    is bcrypt's part. *)
Theorem login_finds_registered d s body salt now iso out d1 s1 u p later s2 body2 v :
  get_prop body "username" = Some (JStr u) →
  get_prop body "password" = Some (JStr p) →
  register d s body salt now iso = (out, (d1, s1)) →
  succeeded out = true →
  bcrypt_compare p (bcrypt_hash p salt) = true →
  same_but_case v (trim u) →
  get_prop body2 "username" = Some (JStr v) →
  get_prop body2 "password" = Some (JStr p) →
  ∃ avatarUrl,
    login (after d1 later) s2 body2
    = (Sent 200 (JObj [("ok", JBool true); ("username", JStr (trim u));
                       ("id", as_written (JNum now)); ("avatarUrl", avatarUrl)]),
       (after d1 later, Some (as_written (JNum now)))).
Proof.
  intros Hu Hp Hreg Hok Hbcrypt Hcase Hv Hp2.
  destruct (register_succeeded _ _ _ _ _ _ _ _ _ _ _ Hreg Hok)
    as (raw & password & users0 & Hraw & Hpassword & Hpat & Hlen & Hread & Hfree0 & _ & -> & _).
  rewrite Hu, text_of_string in Hraw. injection Hraw as <-.
  rewrite Hp, text_of_string in Hpassword. injection Hpassword as <-.
  set (users := as_written <$> users0).
  set (record := as_written (newUser now (trim u) (bcrypt_hash p salt) iso)).
  assert (Forall (λ r, is_Some (name_of r) ∧ carries (trim u) r = false) users) as Hfree.
  { apply Forall_fmap. eapply Forall_impl; [exact Hfree0|]. intros r Hr. simpl.
    unfold carries. by rewrite name_of_written. }
  destruct (after_extends (writeJson d USERS_FILE
                             (JArr (users0 ++ [newUser now (trim u) (bcrypt_hash p salt) iso])))
              later (users ++ [record]))
    as (users' & Hread' & kept & new & -> & Hkept).
  { rewrite readJson_writeJson. simpl. by rewrite fmap_app. }
  assert (name_pattern v = true) as Hvpat by (by rewrite (name_pattern_case (trim u) v)).
  pose proof (name_pattern_length v Hvpat) as Hvlen.
  destruct (Forall2_lookup_l _ _ _ (length users) record Hkept) as (found & Hfound & Hsame).
  { by rewrite list_lookup_middle. }
  destruct Hsame as (Hname & Hhash & Hid).
  assert (get_prop found "id" = Some (as_written (JNum now))) as Hid'.
  { destruct Hid as [->| ->]; [done|]. unfold record. rewrite get_prop_written. simpl.
    f_equal. apply (as_written_idemp (JNum now)). }
  assert (findIndex (same_name v) (kept ++ new) = Returned (Some (length users))) as Hfind.
  { apply findIndex_at with found.
    - rewrite lookup_app_l; [done|]. by eapply lookup_lt_Some.
    - rewrite same_name_name_of, Hname. simpl. f_equal. by apply bool_decide_eq_true_2.
    - intros j y Hj Hy.
      assert (j < length kept)%nat as Hjk.
      { rewrite <-(Forall2_length _ _ _ Hkept), length_app. lia. }
      rewrite lookup_app_l in Hy by done.
      destruct (Forall2_lookup_r _ _ _ _ _ Hkept Hy) as (x & Hx & Hxy).
      rewrite lookup_app_l in Hx by done.
      destruct (proj1 (Forall_forall _ _) Hfree x) as [Hnamed Hnot];
        [by eapply list_elem_of_lookup_2|].
      rewrite same_name_carries by (destruct Hxy as (-> & _); done).
      rewrite (carries_same_account _ _ _ Hxy). f_equal.
      unfold carries in *. destruct (name_of x); [|done].
      apply bool_decide_eq_false. apply bool_decide_eq_false in Hnot.
      unfold same_but_case in Hcase. congruence. }
  rewrite (login_credentials _ _ _ _ _ _ _ Hv Hp2), (trim_name v Hvpat).
  rewrite bool_decide_eq_false_2 by (intros ->; simpl in Hvlen; lia).
  rewrite bool_decide_eq_false_2 by (intros ->; simpl in Hlen; lia).
  simpl. rewrite Hread'. simpl. rewrite Hfind. simpl.
  rewrite lookup_app_l by by eapply lookup_lt_Some. rewrite Hfound. simpl.
  unfold record in Hname, Hhash. rewrite name_of_written in Hname.
  rewrite hash_of_written in Hhash.
  rewrite (name_of_truthy found (trim u)) by done. simpl.
  rewrite Hhash. simpl. rewrite Hbcrypt.
  apply name_of_Some in Hname. unfold object_opt. rewrite Hname, Hid'. simpl.
  by eexists.
Qed.

(** X1: the users file keeps its invariant.  Where no two records carry
    the same user name but for case, no two do after any sequence of
    requests. *)
Theorem names_stay_unique d requests users :
  readJson d USERS_FILE = Returned (JArr users) →
  unique_names users →
  ∃ users', readJson (after d requests) USERS_FILE = Returned (JArr users')
            ∧ unique_names users'.
Proof.
  revert d users. induction requests as [|[s r] requests IH]; intros d users Hread Hunique.
  - by exists users.
  - destruct (serve_users d s r users Hread) as (users1 & Hread1 & Hstep).
    apply (IH _ users1 Hread1). unfold unique_names in *.
    destruct Hstep as [Hsame|(kept & record & name & -> & Hkept & Hname & Hfree)].
    + by rewrite (lower_names_same_account _ _ Hsame).
    + rewrite (lower_names_snoc _ _ _ Hname), (lower_names_same_account _ _ Hkept).
      apply NoDup_app. split; [done|]. split.
      * intros x Hx ->%list_elem_of_singleton. by apply (lower_names_free _ _ Hfree).
      * apply NoDup_singleton.
Qed.

(** X17: a request that is not answered with success changes nothing:
    the files and the session are as they were. *)
Theorem serve_failure_changes_nothing d s r :
  succeeded (serve d s r).1 = false →
  (serve d s r).2 = (d, s).
Proof.
  destruct r as [body salt now iso|body| |body|body iso|body iso]; simpl.
  - destruct (register_effect number_to_string bcrypt_hash d s body salt now iso)
      as [(code & message & _ & ->)|(raw & password & users & H)]; [done|].
    destruct H as (_ & _ & _ & _ & _ & _ & ->). done.
  - destruct (login_effect number_to_string bcrypt_compare d s body)
      as [(code & message & _ & ->)|(raw & password & users & user & hash & H)]; [done|].
    destruct H as (_ & _ & _ & _ & _ & _ & _ & _ & _ & ->). done.
  - done.
  - destruct (me_avatar_effect d s body) as [Hd|(users & idx & fields & _ & _ & _ & ->)].
    + destruct (me_avatar d s body) as [o d']. simpl in *. by subst.
    + done.
  - destruct (saveResponse_effect d body iso) as [->|(old & stored & _ & ->)]; done.
  - destruct (saveLogin_effect number_to_string d body iso)
      as [->|(old & username & _ & _ & ->)]; done.
Qed.

(** X18: a request writes the file of its own collection at most:
    registration and the avatar update the users file, a survey response the
    responses file, a login record the logins file, login and logout none. *)
Theorem serve_writes_own_file d s r f :
  written_file r ≠ Some f →
  (serve d s r).2.1 !! f = d !! f.
Proof.
  intros Hf.
  destruct r as [body salt now iso|body| |body|body iso|body iso]; simpl in *.
  - destruct (register_effect number_to_string bcrypt_hash d s body salt now iso)
      as [(code & message & _ & ->)|(raw & password & users & H)]; [done|].
    destruct H as (_ & _ & _ & _ & _ & _ & ->). simpl. unfold writeJson.
    apply lookup_insert_ne. congruence.
  - by rewrite login_disk.
  - done.
  - destruct (me_avatar_effect d s body) as [Hd|(users & idx & fields & _ & _ & _ & ->)].
    + destruct (me_avatar d s body) as [o d']. simpl in *. by subst.
    + simpl. unfold writeJson. apply lookup_insert_ne. congruence.
  - destruct (saveResponse_effect d body iso) as [->|(old & stored & _ & ->)]; [done|].
    simpl. unfold writeJson. apply lookup_insert_ne. congruence.
  - destruct (saveLogin_effect number_to_string d body iso)
      as [->|(old & username & _ & _ & ->)]; [done|].
    simpl. unfold writeJson. apply lookup_insert_ne. congruence.
Qed.

End Serving.

(** ** The theorems at work *)

(** The operators on text that is not ASCII: [trim] strips the no-break
    space U+00A0, [toLowerCase] lowers the letters of Latin-1 (here U+00C9,
    E with acute), and [encodeURIComponent] writes the two UTF-8 bytes of a
    character from U+0080 on (here U+00F1, n with tilde). *)
Example trim_no_break_space :
  trim (String "160" (String " " ("ab" +:+ String "009" (String "160" "")))) = "ab".
Proof. reflexivity. Qed.

Example toLowerCase_latin1 : toLowerCase (String "201" "COLE") = String "233" "cole".
Proof. reflexivity. Qed.

Example encodeURIComponent_latin1 :
  encodeURIComponent (String "241" " a/b_c") = "%C3%B1%20a%2Fb_c".
Proof. reflexivity. Qed.

(** What [JSON.stringify] writes of numbers: the infinities and [NaN] as
    [null], [-0] as [0], the others as they are. *)
Example as_written_numbers :
  as_written (JArr [JNum infinity; JNum neg_infinity; JNum nan; JNum (-0); JNum 0;
                    JNum 1000; JNum 0.5])
  = JArr [JNull; JNull; JNull; JNum 0; JNum 0; JNum 1000; JNum 0.5].
Proof. reflexivity. Qed.

(** A user name between no-break spaces is registered without them. *)
Example register_trims_no_break_space :
  register Sample.number_to_string Sample.hash Sample.fresh None
    (Sample.credentials (String "160" ("ab" +:+ String "160" "")) "secret1")
    "s1" 1000 Sample.noon
  = (Sent 200 (JObj [("ok", JBool true); ("username", JStr "ab"); ("id", JNum 1000)]),
     (writeJson Sample.fresh USERS_FILE (JArr [newUser 1000 "ab" "s1:secret1" Sample.noon]),
      Some (JNum 1000))).
Proof. reflexivity. Qed.

(** A user name that is a no-break space is blank: the login is refused
    as incomplete, and the avatar proxy makes no call. *)
Example login_blank_name :
  login Sample.number_to_string Sample.compare Sample.two_users None
    (Sample.credentials (String "160" "") "secret1")
  = (fail_with 400 "Credenciales incompletas", (Sample.two_users, None)).
Proof. reflexivity. Qed.

Example avatar_blank_name :
  run (avatar Sample.number_to_string (String "160" " ")) []
  = Some (fail_with 400 "Falta username", []).
Proof. reflexivity. Qed.

(** An avatar URL that is the number [1e400], read as [Infinity], is in
    the file as [null]. *)
Example me_avatar_infinite_avatarUrl :
  readJson (me_avatar Sample.two_users (Some (JNum 1000))
              (JObj [("avatarUrl", JNum infinity)])).2 USERS_FILE
  = Returned (JArr [JObj [("id", JNum 1000); ("username", JStr "Ana_01");
                          ("passwordHash", JStr "s1:secret1"); ("avatarUrl", JNull);
                          ("createdAt", JStr "2024-05-01T10:00:00.000Z")];
                    Sample.bea]).
Proof. reflexivity. Qed.

(** C1, run: a body that carries a password and a password hash leaves a
    record without them. *)
Example saveLogin_drops_injected_password :
  saveLogin Sample.number_to_string Sample.fresh
    (JObj [("username", JStr " mallory "); ("password", JStr "hunter2");
           ("passwordHash", JStr "x"); ("avatarUrl", JNull)]) Sample.noon
  = (replied_ok,
     writeJson Sample.fresh LOGINS_FILE
       (JArr [JObj [("username", JStr "mallory"); ("avatarUrl", JStr "");
                    ("timestamp", JStr Sample.noon)]])).
Proof. reflexivity. Qed.




(** C3, run: a wrong password for Ana_01 and a login as carl, whom no
    record names, get the same reply. *)
Lemma login_refusals_alike_witness :
  login Sample.number_to_string Sample.compare Sample.two_users None
    (Sample.credentials "ANA_01" "not-hers")
  = (fail_with 401 "Usuario/contraseña inválidos", (Sample.two_users, None))
  ∧ login Sample.number_to_string Sample.compare Sample.two_users None
      (Sample.credentials "carl" "secret1")
    = login Sample.number_to_string Sample.compare Sample.two_users None
        (Sample.credentials "ANA_01" "not-hers").
Proof.
  destruct (login_refusals_alike Sample.number_to_string Sample.compare Sample.two_users None
              [Sample.ana; Sample.bea]
              (Sample.credentials "ANA_01" "not-hers") "ANA_01" "not-hers"
              (Sample.credentials "carl" "secret1") "carl" "secret1")
    as (_ & _ & Hsame).
  - reflexivity.
  - repeat constructor; by eexists.
  - reflexivity.
  - reflexivity.
  - reflexivity.
  - reflexivity.
  - apply Exists_cons_hd. reflexivity.
  - repeat constructor.
    + intros _. exists "s1:secret1". split; reflexivity.
    + intros Habsurd. discriminate Habsurd.
  - repeat constructor.
  - destruct Hsame as (H1 & H2 & _); [discriminate..|]. split; [exact H1 | exact H2].
Defined.

(** C3 fails for an empty password: for Ana_01, who is registered, the
    empty password is a wrong one, and the reply is 400 for incomplete
    credentials; a login as carl, whom no record names, gets 401. *)
Lemma login_empty_password_is_no_auth_error :
  carries "Ana_01" Sample.ana = true
  ∧ Sample.compare "" "s1:secret1" = false
  ∧ carries "carl" Sample.ana = false ∧ carries "carl" Sample.bea = false
  ∧ login Sample.number_to_string Sample.compare Sample.two_users None
      (Sample.credentials "Ana_01" "")
    = (fail_with 400 "Credenciales incompletas", (Sample.two_users, None))
  ∧ login Sample.number_to_string Sample.compare Sample.two_users None
      (Sample.credentials "carl" "secret1")
    = (fail_with 401 "Usuario/contraseña inválidos", (Sample.two_users, None))
  ∧ kind_of (fail_with 400 "Credenciales incompletas") = Some ValidationError.
Proof. repeat split; reflexivity. Qed.

(** C3 needs the records to have their hashes: for a record without
    [passwordHash], [bcrypt.compare] rejects and the reply is the internal
    error, while a login as carl, whom no record names, gets 401. *)
Example login_record_without_hash :
  login Sample.number_to_string Sample.compare
    (writeJson Sample.fresh USERS_FILE (JArr [JObj [("id", JNum 1); ("username", JStr "ana")]]))
    None (Sample.credentials "ana" "secret1")
  = (fail_with 500 "Error interno",
     (writeJson Sample.fresh USERS_FILE (JArr [JObj [("id", JNum 1); ("username", JStr "ana")]]),
      None))
  ∧ login Sample.number_to_string Sample.compare
      (writeJson Sample.fresh USERS_FILE (JArr [JObj [("id", JNum 1); ("username", JStr "ana")]]))
      None (Sample.credentials "carl" "secret1")
    = (fail_with 401 "Usuario/contraseña inválidos",
       (writeJson Sample.fresh USERS_FILE (JArr [JObj [("id", JNum 1); ("username", JStr "ana")]]),
        None)).
Proof. split; reflexivity. Qed.

(** C4, run: Carla-9 registers (with blanks around the name), other
    requests are served, and a login as CARLA-9 with her password returns
    the name as stored. *)
Lemma login_finds_registered_witness :
  ∃ avatarUrl,
    login Sample.number_to_string Sample.compare
      (after Sample.number_to_string Sample.hash Sample.compare
         (register Sample.number_to_string Sample.hash Sample.two_users None
            (Sample.credentials " Carla-9 " "secret9") "s3" 3000 Sample.noon).2.1
         Sample.afterwards)
      None (Sample.credentials "CARLA-9" "secret9")
    = (Sent 200 (JObj [("ok", JBool true); ("username", JStr (trim " Carla-9 "));
                       ("id", JNum 3000); ("avatarUrl", avatarUrl)]),
       (after Sample.number_to_string Sample.hash Sample.compare
          (register Sample.number_to_string Sample.hash Sample.two_users None
             (Sample.credentials " Carla-9 " "secret9") "s3" 3000 Sample.noon).2.1
          Sample.afterwards,
        Some (JNum 3000))).
Proof.
  apply (login_finds_registered Sample.number_to_string Sample.hash Sample.compare
           Sample.two_users None (Sample.credentials " Carla-9 " "secret9") "s3" 3000 Sample.noon
           (register Sample.number_to_string Sample.hash Sample.two_users None
              (Sample.credentials " Carla-9 " "secret9") "s3" 3000 Sample.noon).1
           (register Sample.number_to_string Sample.hash Sample.two_users None
              (Sample.credentials " Carla-9 " "secret9") "s3" 3000 Sample.noon).2.1
           (register Sample.number_to_string Sample.hash Sample.two_users None
              (Sample.credentials " Carla-9 " "secret9") "s3" 3000 Sample.noon).2.2
           " Carla-9 " "secret9" Sample.afterwards None
           (Sample.credentials "CARLA-9" "secret9") "CARLA-9").
  - reflexivity.
  - reflexivity.
  - reflexivity.
  - reflexivity.
  - reflexivity.
  - reflexivity.
  - reflexivity.
  - reflexivity.
Defined.

(** C5, run: on an empty data directory the users file is created at the
    start, reads as the empty sequence, and the first registration succeeds. *)
Lemma missing_files_are_created_at_start_witness :
  readJson (ensureDataFiles ∅) USERS_FILE = Returned (JArr [])
  ∧ register Sample.number_to_string Sample.hash (ensureDataFiles ∅) None
      (Sample.credentials "Ana_01" "secret1") "s1" 1000 Sample.noon
    = (Sent 200 (JObj [("ok", JBool true); ("username", JStr "Ana_01"); ("id", JNum 1000)]),
       (writeJson (ensureDataFiles ∅) USERS_FILE
          (JArr [newUser 1000 "Ana_01" (Sample.hash "secret1" "s1") Sample.noon]),
        Some (JNum 1000))).
Proof.
  destruct (missing_files_are_created_at_start Sample.number_to_string Sample.hash ∅ None
              (Sample.credentials "Ana_01" "secret1") "s1" 1000 Sample.noon "Ana_01" "secret1")
    as (_ & Hcreated & _ & Hregister).
  - reflexivity.
  - reflexivity.
  - simpl. lia.
  - reflexivity.
  - reflexivity.
  - split; [|exact Hregister]. by apply Hcreated.
Defined.

(** C5 fails for [readJson] itself: with no users file, reading throws,
    the registration that reads it is answered with the internal error, and
    the file is still missing afterwards. *)
Lemma load_of_a_missing_file_fails :
  readJson ∅ USERS_FILE = Thrown
  ∧ register Sample.number_to_string Sample.hash ∅ None
      (Sample.credentials "Ana_01" "secret1") "s1" 1000 Sample.noon
    = (fail_with 500 "Error interno", (∅, None))
  ∧ (register Sample.number_to_string Sample.hash ∅ None
       (Sample.credentials "Ana_01" "secret1") "s1" 1000 Sample.noon).2.1 !! USERS_FILE = None.
Proof. repeat split; reflexivity. Qed.

(** C6, run: a registration at clock reading 3000, after the users with
    ids 1000 and 2000. *)
Lemma register_id_is_the_clock_witness :
  ∃ record,
    readJson (register Sample.number_to_string Sample.hash Sample.two_users None
                (Sample.credentials "carl" "secret3") "s3" 3000 Sample.noon).2.1 USERS_FILE
    = Returned (JArr ((as_written <$> [Sample.ana; Sample.bea]) ++ [record]))
    ∧ get_prop record "id" = Some (as_written (JNum 3000))
    ∧ (register Sample.number_to_string Sample.hash Sample.two_users None
         (Sample.credentials "carl" "secret3") "s3" 3000 Sample.noon).2.2 = Some (JNum 3000)
    ∧ Forall (λ r, strict_eq_opt (get_prop r "id") (get_prop record "id") = false)
             [Sample.ana; Sample.bea].
Proof.
  apply (register_id_is_the_clock Sample.number_to_string Sample.hash Sample.two_users None
           (Sample.credentials "carl" "secret3") "s3" 3000 Sample.noon
           (register Sample.number_to_string Sample.hash Sample.two_users None
              (Sample.credentials "carl" "secret3") "s3" 3000 Sample.noon).1).
  - reflexivity.
  - reflexivity.
  - reflexivity.
  - repeat constructor; eexists; split; reflexivity.
Defined.

(** C6 fails when the clock repeats: with Ana_01 registered at clock
    reading 1000, a registration of carl at the same reading succeeds and
    gives carl the id 1000, the id Ana_01 has. *)
Lemma register_can_repeat_an_id :
  get_prop Sample.ana "id" = Some (JNum 1000)
  ∧ register Sample.number_to_string Sample.hash Sample.two_users None
      (Sample.credentials "carl" "secret3") "s3" 1000 Sample.noon
    = (Sent 200 (JObj [("ok", JBool true); ("username", JStr "carl"); ("id", JNum 1000)]),
       (writeJson Sample.two_users USERS_FILE
          (JArr [Sample.ana; Sample.bea; newUser 1000 "carl" "s3:secret3" Sample.noon]),
        Some (JNum 1000)))
  ∧ strict_eq_opt (get_prop Sample.ana "id")
      (get_prop (newUser 1000 "carl" "s3:secret3" Sample.noon) "id") = true.
Proof. repeat split; reflexivity. Qed.


(** C8, run: bea, whose id is 2000 and whose record is the second, sets
    her avatar. *)
Lemma me_avatar_changes_only_avatarUrl_witness :
  ∃ fields fields' users',
    Sample.bea = JObj fields
    ∧ (me_avatar Sample.two_users (Some (JNum 2000)) Sample.new_avatar).1 = replied_ok
    ∧ readJson (me_avatar Sample.two_users (Some (JNum 2000)) Sample.new_avatar).2 USERS_FILE
      = Returned (JArr users')
    ∧ length users' = length [Sample.ana; Sample.bea]
    ∧ users' !! 1%nat = Some (JObj fields')
    ∧ (∀ j, j ≠ 1%nat → users' !! j = as_written <$> [Sample.ana; Sample.bea] !! j)
    ∧ lookup_prop "avatarUrl" fields'
      = Some (as_written (or_else (get_prop Sample.new_avatar "avatarUrl") (JStr "")))
    ∧ (∀ k, k ≠ "avatarUrl" → lookup_prop k fields' = as_written <$> lookup_prop k fields)
    ∧ keys fields' = (if bool_decide ("avatarUrl" ∈ keys fields) then keys fields
                      else keys fields ++ ["avatarUrl"])
    ∧ (∀ f, f ≠ USERS_FILE →
            (me_avatar Sample.two_users (Some (JNum 2000)) Sample.new_avatar).2 !! f
            = Sample.two_users !! f)
    ∧ (as_written <$> [Sample.ana; Sample.bea] = [Sample.ana; Sample.bea] →
       (∀ j, j ≠ 1%nat → users' !! j = [Sample.ana; Sample.bea] !! j)
       ∧ (∀ k, k ≠ "avatarUrl" → lookup_prop k fields' = lookup_prop k fields)).
Proof.
  apply (me_avatar_changes_only_avatarUrl Sample.two_users (JNum 2000) Sample.new_avatar
           [Sample.ana; Sample.bea] 1 Sample.bea).
  - reflexivity.
  - discriminate.
  - reflexivity.
  - repeat constructor; discriminate.
  - reflexivity.
  - reflexivity.
  - intros [|[|j]] r Hj Hr; [|lia|lia]. injection Hr as <-. reflexivity.
Defined.

(** C8 fails where an id repeats: carl registered at the clock reading
    1000, the id Ana_01 has, and his session holds that id.  His avatar
    update goes to the first record with the id, Ana_01's, and his own
    record stays as it was. *)
Lemma me_avatar_changes_another_users_record :
  (register Sample.number_to_string Sample.hash Sample.two_users None
     (Sample.credentials "carl" "secret3") "s3" 1000 Sample.noon).2
  = (Sample.repeated_id, Some (JNum 1000))
  ∧ readJson Sample.repeated_id USERS_FILE
    = Returned (JArr [Sample.ana; Sample.bea; Sample.carl])
  ∧ name_of Sample.carl = Some "carl"
  ∧ readJson (me_avatar Sample.repeated_id (Some (JNum 1000)) Sample.new_avatar).2 USERS_FILE
    = Returned (JArr [JObj [("id", JNum 1000); ("username", JStr "Ana_01");
                            ("passwordHash", JStr "s1:secret1");
                            ("avatarUrl", JStr "https://example.org/bea.png");
                            ("createdAt", JStr "2024-05-01T10:00:00.000Z")];
                      Sample.bea; Sample.carl])
  ∧ get_prop Sample.ana "avatarUrl" = Some (JStr "").
Proof. repeat split; reflexivity. Qed.

(** C9, run: three responses, an object, an array and [null], on a fresh
    directory. *)
Lemma saveResponse_appends_in_order_witness :
  ∃ added,
    readJson (submit_responses Sample.fresh Sample.surveys) RESP_FILE
    = Returned (JArr ((if Sample.surveys is [] then [] else as_written <$> []) ++ added))
    ∧ length added = length Sample.surveys
    ∧ Forall2 (λ p stored,
                 ∃ record,
                   assign_prop (if truthy p.1 then p.1 else JObj []) "timestamp" (JStr p.2)
                   = Returned record
                   ∧ stored = as_written record)
              Sample.surveys added.
Proof.
  apply (saveResponse_appends_in_order Sample.fresh [] Sample.surveys).
  reflexivity.
Defined.

(** C10, run: the body has a [timestamp] of its own. *)
Lemma saveResponse_stamps_objects_witness :
  ∃ stored,
    (saveResponse Sample.fresh
       (JObj [("q1", JStr "yes"); ("timestamp", JStr "1999")]) Sample.noon).1 = replied_ok
    ∧ readJson (saveResponse Sample.fresh
                  (JObj [("q1", JStr "yes"); ("timestamp", JStr "1999")]) Sample.noon).2
        RESP_FILE
      = Returned (JArr ((as_written <$> []) ++ [JObj stored]))
    ∧ lookup_prop "timestamp" stored = Some (JStr Sample.noon)
    ∧ (∀ x, ("timestamp", x) ∈ stored → x = JStr Sample.noon)
    ∧ (∀ k, k ≠ "timestamp" →
            lookup_prop k stored
            = as_written <$> lookup_prop k [("q1", JStr "yes"); ("timestamp", JStr "1999")]).
Proof.
  apply (saveResponse_stamps_objects Sample.fresh []
           [("q1", JStr "yes"); ("timestamp", JStr "1999")] Sample.noon).
  - reflexivity.
  - unfold keys. simpl. repeat constructor; set_solver.
Defined.

(** C10 fails for a body that is an array: the array is stored as it
    came, and the stored record has no [timestamp]. *)
Lemma saveResponse_array_has_no_timestamp :
  parsed_body (JArr [JNum 1; JNum 2]) = true
  ∧ saveResponse Sample.fresh (JArr [JNum 1; JNum 2]) Sample.noon
    = (replied_ok, writeJson Sample.fresh RESP_FILE (JArr [JArr [JNum 1; JNum 2]]))
  ∧ readJson (saveResponse Sample.fresh (JArr [JNum 1; JNum 2]) Sample.noon).2 RESP_FILE
    = Returned (JArr [JArr [JNum 1; JNum 2]])
  ∧ get_prop (JArr [JNum 1; JNum 2]) "timestamp" = None.
Proof. repeat split; reflexivity. Qed.

(** X1, run: two users with different names, and the requests of
    [Sample.afterwards]. *)
Lemma names_stay_unique_witness :
  ∃ users',
    readJson (after Sample.number_to_string Sample.hash Sample.compare
                Sample.two_users Sample.afterwards) USERS_FILE
    = Returned (JArr users')
    ∧ unique_names users'.
Proof.
  apply (names_stay_unique Sample.number_to_string Sample.hash Sample.compare
           Sample.two_users Sample.afterwards [Sample.ana; Sample.bea]).
  - reflexivity.
  - unfold unique_names. simpl. repeat constructor; set_solver.
Defined.

(** X2, run: a session with an id that no user has. *)
Lemma me_anonymous_witness :
  me Sample.two_users (Some (JNum 5000)) = Sent 200 (JObj [("logged", JBool false)]).
Proof.
  apply (me_anonymous Sample.two_users (Some (JNum 5000)) [Sample.ana; Sample.bea]).
  - reflexivity.
  - repeat constructor; discriminate.
  - right. repeat constructor.
Defined.

(** X3, run: the user id is a string here, so that no number is printed. *)
Lemma avatar_resolves_witness :
  run (avatar Sample.number_to_string "builderman")
    [Response true (Some (JObj [("Id", JStr "156"); ("Username", JStr "builderman")]));
     Response true (Some (JObj [("data", JArr [JObj [("imageUrl", JStr "https://tr.rbxcdn.com/x.png")]])]))]
  = Some (Sent 200 (JObj [("imageUrl", JStr "https://tr.rbxcdn.com/x.png")]),
          ["https://api.roblox.com/users/get-by-username?username="
           +:+ encodeURIComponent (trim "builderman");
           "https://thumbnails.roblox.com/v1/users/avatar-headshot?userIds="
           +:+ "156" +:+ "&size=150x150&format=Png&isCircular=false"]).
Proof.
  apply (avatar_resolves Sample.number_to_string "builderman"
           (JObj [("Id", JStr "156"); ("Username", JStr "builderman")]) (JStr "156") "156"
           (JObj [("data", JArr [JObj [("imageUrl", JStr "https://tr.rbxcdn.com/x.png")]])])
           (JStr "https://tr.rbxcdn.com/x.png") []).
  - discriminate.
  - reflexivity.
  - reflexivity.
  - reflexivity.
  - reflexivity.
  - reflexivity.
Defined.

(** X4, run: a session with an id that no user has asks for a new avatar. *)
Lemma me_avatar_unknown_user_witness :
  me_avatar Sample.two_users (Some (JNum 5000)) Sample.new_avatar
  = (fail_with 404 "Usuario no encontrado", Sample.two_users)
  ∧ kind_of (me_avatar Sample.two_users (Some (JNum 5000)) Sample.new_avatar).1
    = Some NotFoundError.
Proof.
  apply (me_avatar_unknown_user Sample.two_users (JNum 5000) Sample.new_avatar
           [Sample.ana; Sample.bea]).
  - reflexivity.
  - discriminate.
  - reflexivity.
  - repeat constructor; discriminate.
  - repeat constructor.
Defined.

(** X5, run: the first survey response on a fresh directory, then the
    download. *)
Lemma download_after_saveResponse_witness :
  ∃ stored,
    assign_prop (if truthy (JObj [("q1", JStr "yes")]) then JObj [("q1", JStr "yes")]
                 else JObj []) "timestamp" (JStr Sample.noon) = Returned stored
    ∧ download (saveResponse Sample.fresh (JObj [("q1", JStr "yes")]) Sample.noon).2
      = Sent 200 (JObj [("responses", JArr ((as_written <$> []) ++ [as_written stored]));
                        ("logins", JArr [])]).
Proof.
  apply (download_after_saveResponse Sample.fresh (JObj [("q1", JStr "yes")]) Sample.noon
           [] (JArr [])).
  - reflexivity.
  - reflexivity.
Defined.

(** X7, run: the responses file is not JSON. *)
Lemma unreadable_responses_are_left_alone_witness :
  saveResponse Sample.broken_responses (JObj [("q1", JStr "yes")]) Sample.noon
  = (fail_with 500 "Error interno", Sample.broken_responses)
  ∧ download Sample.broken_responses = fail_with 500 "Error interno"
  ∧ kind_of (saveResponse Sample.broken_responses (JObj [("q1", JStr "yes")]) Sample.noon).1
    = Some InternalError.
Proof.
  apply (unreadable_responses_are_left_alone Sample.broken_responses
           (JObj [("q1", JStr "yes")]) Sample.noon).
  reflexivity.
Defined.

(** X8, run: the object has a password and a timestamp of its own. *)
Lemma recopilacionSaveLogin_record_witness :
  ∃ old safe,
    readArray Sample.page STORAGE_KEY_LOGINS = JArr old
    ∧ readArray
        (writeArray Sample.page STORAGE_KEY_LOGINS
           (JArr [JObj [("username", JStr "ana")];
                  JObj [("username", JStr "bea"); ("avatarUrl", JStr "");
                        ("timestamp", JStr "1999");
                        ("note", JStr "Demo only -  passwords collected")]]))
        STORAGE_KEY_LOGINS
      = JArr ((as_written <$> old) ++ [JObj safe])
    ∧ keys safe = ["username"; "avatarUrl"; "timestamp"; "note"]
    ∧ lookup_prop "password" safe = None
    ∧ lookup_prop "timestamp" safe
      = Some (as_written
                (or_else (get_prop (JObj [("username", JStr "bea"); ("password", JStr "hunter22");
                                          ("timestamp", JStr "1999")]) "timestamp")
                   (JStr Sample.noon)))
    ∧ writeArray Sample.page STORAGE_KEY_LOGINS
        (JArr [JObj [("username", JStr "ana")];
               JObj [("username", JStr "bea"); ("avatarUrl", JStr "");
                     ("timestamp", JStr "1999");
                     ("note", JStr "Demo only -  passwords collected")]])
      !! STORAGE_KEY_RESPONSES
      = Sample.page !! STORAGE_KEY_RESPONSES.
Proof.
  apply (recopilacionSaveLogin_record Sample.page
           (JObj [("username", JStr "bea"); ("password", JStr "hunter22");
                  ("timestamp", JStr "1999")])
           Sample.noon).
  reflexivity.
Defined.

(** X9, run: the responses item is not JSON, and is replaced. *)
Lemma recopilacionSaveResponse_then_GetAll_witness :
  ∃ st',
    recopilacionSaveResponse Sample.page (JObj [("q1", JStr "yes")]) = Returned st'
    ∧ recopilacionGetAll st'
      = JObj [("responses", JArr ((as_written <$> []) ++ [as_written (JObj [("q1", JStr "yes")])]));
              ("logins", readArray Sample.page STORAGE_KEY_LOGINS)]
    ∧ (Sample.page !! STORAGE_KEY_RESPONSES = None
       ∨ Sample.page !! STORAGE_KEY_RESPONSES = Some Blank
       ∨ Sample.page !! STORAGE_KEY_RESPONSES = Some Garbled → [] = ([] : list json)).
Proof.
  apply (recopilacionSaveResponse_then_GetAll Sample.page (JObj [("q1", JStr "yes")]) []).
  reflexivity.
Defined.

(** X11, run: the lookup answers, the thumbnail service refuses, and a
    third answer is at hand. *)
Lemma avatar_calls_at_most_twice_witness :
  ∃ status payload urls,
    run (avatar Sample.number_to_string "bob")
      [Response true (Some (JObj [("Id", JStr "7")])); Response false None; Unreachable]
    = Some (Sent status payload, urls)
    ∧ (length urls ≤ 2)%nat
    ∧ run (avatar Sample.number_to_string "bob")
        (take 2 [Response true (Some (JObj [("Id", JStr "7")])); Response false None;
                 Unreachable])
      = run (avatar Sample.number_to_string "bob")
          [Response true (Some (JObj [("Id", JStr "7")])); Response false None; Unreachable]
    ∧ (trim "bob" = "" →
       ∀ others, run (avatar Sample.number_to_string "bob") others
                 = Some (fail_with 400 "Falta username", [])).
Proof.
  apply (avatar_calls_at_most_twice Sample.number_to_string "bob"
           [Response true (Some (JObj [("Id", JStr "7")])); Response false None; Unreachable]).
  simpl. lia.
Defined.

(** X12, run: a name with a blank in it, on a directory with two users. *)
Lemma register_refuses_invalid_input_witness :
  ∃ message,
    register Sample.number_to_string Sample.hash Sample.two_users None
      (Sample.credentials "a b" "secret1") "s3" 3000 Sample.noon
    = (fail_with 400 message, (Sample.two_users, None))
    ∧ register Sample.number_to_string Sample.hash ∅ None
        (Sample.credentials "a b" "secret1") "s3" 3000 Sample.noon
      = (fail_with 400 message, (∅, None))
    ∧ kind_of (fail_with 400 message) = Some ValidationError.
Proof.
  apply (register_refuses_invalid_input Sample.number_to_string Sample.hash Sample.two_users None
           (Sample.credentials "a b" "secret1") "s3" 3000 Sample.noon "a b" "secret1").
  - reflexivity.
  - reflexivity.
  - left. reflexivity.
Defined.

(** X13, run: carl registers. *)
Lemma register_stores_hash_only_witness :
  ∃ users password record reply,
    text_of Sample.number_to_string
      (get_prop (Sample.credentials "carl" "secret3") "password") = Returned password
    ∧ readJson Sample.two_users USERS_FILE = Returned (JArr users)
    ∧ readJson (register Sample.number_to_string Sample.hash Sample.two_users None
                  (Sample.credentials "carl" "secret3") "s3" 3000 Sample.noon).2.1 USERS_FILE
      = Returned (JArr ((as_written <$> users) ++ [JObj record]))
    ∧ keys record = ["id"; "username"; "passwordHash"; "avatarUrl"; "createdAt"]
    ∧ lookup_prop "passwordHash" record = Some (JStr (Sample.hash password "s3"))
    ∧ lookup_prop "avatarUrl" record = Some (JStr "")
    ∧ lookup_prop "createdAt" record = Some (JStr Sample.noon)
    ∧ (register Sample.number_to_string Sample.hash Sample.two_users None
         (Sample.credentials "carl" "secret3") "s3" 3000 Sample.noon).1 = Sent 200 (JObj reply)
    ∧ keys reply = ["ok"; "username"; "id"]
    ∧ lookup_prop "username" reply = lookup_prop "username" record.
Proof.
  apply (register_stores_hash_only Sample.number_to_string Sample.hash Sample.two_users None
           (Sample.credentials "carl" "secret3") "s3" 3000 Sample.noon
           (register Sample.number_to_string Sample.hash Sample.two_users None
              (Sample.credentials "carl" "secret3") "s3" 3000 Sample.noon).1
           (register Sample.number_to_string Sample.hash Sample.two_users None
              (Sample.credentials "carl" "secret3") "s3" 3000 Sample.noon).2.1
           (register Sample.number_to_string Sample.hash Sample.two_users None
              (Sample.credentials "carl" "secret3") "s3" 3000 Sample.noon).2.2).
  - reflexivity.
  - reflexivity.
Defined.

(** X14, run: carl registers at clock reading 3000 and asks who he is. *)
Lemma register_then_me_witness :
  ∃ name,
    (register Sample.number_to_string Sample.hash Sample.two_users None
       (Sample.credentials "carl" "secret3") "s3" 3000 Sample.noon).1
    = Sent 200 (JObj [("ok", JBool true); ("username", JStr name); ("id", JNum 3000)])
    ∧ me (register Sample.number_to_string Sample.hash Sample.two_users None
            (Sample.credentials "carl" "secret3") "s3" 3000 Sample.noon).2.1
         (register Sample.number_to_string Sample.hash Sample.two_users None
            (Sample.credentials "carl" "secret3") "s3" 3000 Sample.noon).2.2
      = Sent 200 (JObj [("logged", JBool true); ("username", JStr name);
                        ("avatarUrl", JStr "")]).
Proof.
  apply (register_then_me Sample.number_to_string Sample.hash Sample.two_users None
           (Sample.credentials "carl" "secret3") "s3" 3000 Sample.noon
           (register Sample.number_to_string Sample.hash Sample.two_users None
              (Sample.credentials "carl" "secret3") "s3" 3000 Sample.noon).1
           (register Sample.number_to_string Sample.hash Sample.two_users None
              (Sample.credentials "carl" "secret3") "s3" 3000 Sample.noon).2.1
           (register Sample.number_to_string Sample.hash Sample.two_users None
              (Sample.credentials "carl" "secret3") "s3" 3000 Sample.noon).2.2
           [Sample.ana; Sample.bea]).
  - reflexivity.
  - reflexivity.
  - reflexivity.
  - repeat constructor; discriminate.
  - repeat constructor.
  - reflexivity.
  - reflexivity.
Defined.

(** X15, run: Ana_01 logs in as ANA_01. *)
Lemma login_success_means_verified_witness :
  ∃ raw password users user hash,
    text_of Sample.number_to_string
      (get_prop (Sample.credentials "ANA_01" "secret1") "username") = Returned raw
    ∧ text_of Sample.number_to_string
        (get_prop (Sample.credentials "ANA_01" "secret1") "password") = Returned password
    ∧ readJson Sample.two_users USERS_FILE = Returned (JArr users)
    ∧ user ∈ users
    ∧ carries (trim raw) user = true
    ∧ hash_of user = Some hash
    ∧ Sample.compare password hash = true
    ∧ (login Sample.number_to_string Sample.compare Sample.two_users None
         (Sample.credentials "ANA_01" "secret1")).2.1 = Sample.two_users
    ∧ (login Sample.number_to_string Sample.compare Sample.two_users None
         (Sample.credentials "ANA_01" "secret1")).2.2 = get_prop user "id".
Proof.
  apply (login_success_means_verified Sample.number_to_string Sample.compare Sample.two_users None
           (Sample.credentials "ANA_01" "secret1")
           (login Sample.number_to_string Sample.compare Sample.two_users None
              (Sample.credentials "ANA_01" "secret1")).1).
  - reflexivity.
  - reflexivity.
Defined.

(** X16, run: the reply to a login that succeeds. *)
Lemma login_reply_hides_hash_witness :
  lookup_prop "passwordHash"
    [("ok", JBool true); ("username", JStr "Ana_01"); ("id", JNum 1000); ("avatarUrl", JStr "")]
  = None
  ∧ lookup_prop "password"
      [("ok", JBool true); ("username", JStr "Ana_01"); ("id", JNum 1000); ("avatarUrl", JStr "")]
    = None.
Proof.
  apply (login_reply_hides_hash Sample.number_to_string Sample.compare Sample.two_users None
           (Sample.credentials "ANA_01" "secret1") 200).
  reflexivity.
Defined.

(** X17, run: a login with a wrong password, from a session that is
    logged in as bea. *)
Lemma serve_failure_changes_nothing_witness :
  (serve Sample.number_to_string Sample.hash Sample.compare Sample.two_users
     (Some (JNum 2000)) (Login (Sample.credentials "Ana_01" "not-hers"))).2
  = (Sample.two_users, Some (JNum 2000)).
Proof.
  apply (serve_failure_changes_nothing Sample.number_to_string Sample.hash Sample.compare
           Sample.two_users (Some (JNum 2000)) (Login (Sample.credentials "Ana_01" "not-hers"))).
  reflexivity.
Defined.

(** X18, run: a registration leaves the logins file alone. *)
Lemma serve_writes_own_file_witness :
  (serve Sample.number_to_string Sample.hash Sample.compare Sample.two_users None
     (Register (Sample.credentials "carl" "secret3") "s3" 3000 Sample.noon)).2.1 !! LOGINS_FILE
  = Sample.two_users !! LOGINS_FILE.
Proof.
  apply (serve_writes_own_file Sample.number_to_string Sample.hash Sample.compare
           Sample.two_users None
           (Register (Sample.credentials "carl" "secret3") "s3" 3000 Sample.noon) LOGINS_FILE).
  discriminate.
Defined.
